(** * WebAuthn client ceremonies ([public/client.js])

    A shallow embedding of the four exported functions of [client.js]
    ([_fetch], [registerCredential], [unregisterCredential], [authenticate])
    together with the fragment of JavaScript they rely on, and the
    properties of the ceremonies proved on that embedding.

    The browser is the environment: [fetch], [navigator.credentials],
    the [base64url] codec, [localStorage] and [console].  Every call the
    program makes to it is recorded, with its answer, in a trace. *)

From Stdlib Require Import ZArith String Ascii List Lia DecimalString.
From Stdlib.Strings Require Import Byte.
From stdpp Require Import base option list strings gmap.

Open Scope string_scope.
Open Scope list_scope.
Open Scope Z_scope.

(** ** JavaScript values *)

(** The values the program handles: JSON data received from the server,
    [ArrayBuffer]s produced by the codec and by the authenticator, and the
    objects the program builds itself.  An object is its list of own
    properties in insertion order; an array also carries its named (non
    index) own properties, which an assignment such as [arr.id = x] adds.
    [VNum] carries integral numbers only. *)
#[warnings="-register-all"]
Inductive JsVal : Type :=
| VUndef
| VNull
| VBool (b : bool)
| VNum (n : Z)
| VStr (s : string)
| VBuf (data : list byte)
| VArr (items : list JsVal) (props : list (string * JsVal))
| VObj (props : list (string * JsVal)).

(** A parsed JSON text, as [res.json()] receives it and [JSON.stringify]
    produces it; members are kept in the order of the text. *)
#[warnings="-register-all"]
Inductive Json : Type :=
| JNull
| JBool (b : bool)
| JNum (n : Z)
| JStr (s : string)
| JArr (items : list Json)
| JObj (members : list (string * Json)).

(** What a [throw] or a rejected promise carries. *)
Inductive Exn : Type :=
| Thrown (v : JsVal)          (* [throw v] of the program *)
| TypeError                   (* raised by the language itself *)
| SyntaxError                 (* [res.json()] on a body that is not JSON *)
| MalformedEncodingError      (* [base64url.decode] on malformed text *)
| HostError (name : string).  (* a rejection by network or authenticator *)

Inductive result (A : Type) : Type :=
| Ok (a : A)
| Throw (e : Exn).
Arguments Ok {A} a.
Arguments Throw {A} e.

(** *** Own properties *)

Fixpoint own {A : Type} (k : string) (props : list (string * A)) : option A :=
  match props with
  | [] => None
  | (k', v) :: ps => if String.eqb k k' then Some v else own k ps
  end.

(** [o[k] = v] on the property list: an existing key keeps its place. *)
Fixpoint put {A : Type} (k : string) (v : A) (props : list (string * A))
  : list (string * A) :=
  match props with
  | [] => [(k, v)]
  | (k', v') :: ps =>
      if String.eqb k k' then (k, v) :: ps else (k', v') :: put k v ps
  end.

(** [JSON.parse]: members are defined one after the other, so a repeated key
    keeps the last value. *)
Fixpoint of_json (j : Json) : JsVal :=
  match j with
  | JNull => VNull
  | JBool b => VBool b
  | JNum n => VNum n
  | JStr s => VStr s
  | JArr items => VArr (List.map of_json items) []
  | JObj members =>
      VObj (List.fold_left
              (fun acc kv => match kv with (k, v) => put k (of_json v) acc end)
              members [])
  end.

(** [JSON.stringify], up to the rendering of the tree as text: [None] is the
    [undefined] it returns for [undefined]; a member whose value is
    [undefined] is left out, an [undefined] array element becomes [null],
    and an [ArrayBuffer] has no enumerable property. *)
Fixpoint to_json (v : JsVal) : option Json :=
  match v with
  | VUndef => None
  | VNull => Some JNull
  | VBool b => Some (JBool b)
  | VNum n => Some (JNum n)
  | VStr s => Some (JStr s)
  | VBuf _ => Some (JObj [])
  | VArr items _ =>
      Some (JArr (List.map (fun x => match to_json x with
                                     | Some j => j
                                     | None => JNull
                                     end) items))
  | VObj props =>
      Some (JObj ((fix members (ps : list (string * JsVal)) :=
                     match ps with
                     | [] => []
                     | (k, x) :: ps' =>
                         match to_json x with
                         | Some j => (k, j) :: members ps'
                         | None => members ps'
                         end
                     end) props))
  end.

(** *** Operators *)

(** [ToBoolean]. *)
Definition truthy (v : JsVal) : bool :=
  match v with
  | VUndef | VNull => false
  | VBool b => b
  | VNum n => negb (n =? 0)
  | VStr s => negb (String.eqb s "")
  | VBuf _ | VArr _ _ | VObj _ => true
  end.

(** [v === n] for a number literal [n]. *)
Definition strict_eq_num (v : JsVal) (n : Z) : bool :=
  match v with
  | VNum m => m =? n
  | _ => false
  end.

Definition or_undefined (o : option JsVal) : JsVal :=
  match o with
  | Some v => v
  | None => VUndef
  end.

(** [v.k] (or [v[k]]).  The keys the program reads are [user], [id],
    [challenge], [excludeCredentials], [allowCredentials], [length],
    [error], [rawId], [type], [response], [clientDataJSON],
    [attestationObject], [authenticatorData], [signature] and [userHandle];
    of these only [length] is found on a prototype (of arrays and of
    strings), so every other read is a read of an own property. *)
Definition get_prop (v : JsVal) (k : string) : result JsVal :=
  match v with
  | VUndef | VNull => Throw TypeError
  | VBool _ | VNum _ | VBuf _ => Ok VUndef
  | VStr s =>
      if String.eqb k "length" then Ok (VNum (Z.of_nat (String.length s)))
      else Ok VUndef
  | VArr items props =>
      if String.eqb k "length" then Ok (VNum (Z.of_nat (List.length items)))
      else Ok (or_undefined (own k props))
  | VObj props => Ok (or_undefined (own k props))
  end.

(** [v.k = x] in strict mode (the file is a module): creating a property on
    a primitive is a [TypeError].  The program assigns the keys [id],
    [challenge] only, and never into a buffer, whose added properties are
    not tracked. *)
Definition set_prop (v : JsVal) (k : string) (x : JsVal) : result JsVal :=
  match v with
  | VUndef | VNull | VBool _ | VNum _ | VStr _ => Throw TypeError
  | VBuf data => Ok (VBuf data)
  | VArr items props => Ok (VArr items (put k x props))
  | VObj props => Ok (VObj (put k x props))
  end.

(** The program mutates objects it reached through [parent.k]; the parent
    sees the mutation.  With values as trees this is a write of the mutated
    child [x] back at [k], where [k] is an own property already. *)
Definition write_back (parent : JsVal) (k : string) (x : JsVal) : JsVal :=
  match parent with
  | VArr items props => VArr items (put k x props)
  | VObj props => VObj (put k x props)
  | _ => parent
  end.

Definition string_of_Z (n : Z) : string :=
  NilZero.string_of_int (Z.to_int n).

Fixpoint join (sep : string) (l : list string) : string :=
  match l with
  | [] => ""
  | [s] => s
  | s :: l' => (s ++ sep ++ join sep l')%string
  end.

Fixpoint sequence_results {A : Type} (l : list (result A)) : result (list A) :=
  match l with
  | [] => Ok []
  | Ok a :: l' =>
      match sequence_results l' with
      | Ok r => Ok (a :: r)
      | Throw e => Throw e
      end
  | Throw e :: _ => Throw e
  end.

(** [ToString].  No value of the model is callable, so an own [toString]
    leaves an object without a primitive value ([TypeError]), and an own
    [join] sends an array to [Object.prototype.toString]. *)
Fixpoint to_string (v : JsVal) : result string :=
  match v with
  | VUndef => Ok "undefined"
  | VNull => Ok "null"
  | VBool true => Ok "true"
  | VBool false => Ok "false"
  | VNum n => Ok (string_of_Z n)
  | VStr s => Ok s
  | VBuf _ => Ok "[object ArrayBuffer]"
  | VObj props =>
      match own "toString" props with
      | Some _ => Throw TypeError
      | None => Ok "[object Object]"
      end
  | VArr items props =>
      match own "toString" props, own "join" props with
      | Some _, _ => Throw TypeError
      | None, Some _ => Ok "[object Array]"
      | None, None =>
          match sequence_results
                  (List.map (fun x => match x with
                                      | VUndef | VNull => Ok ""
                                      | _ => to_string x
                                      end) items) with
          | Ok l => Ok (join "," l)
          | Throw e => Throw e
          end
      end
  end.

(** What [for (let x of v)] visits: the elements of an array, the
    characters of a string; nothing else here is iterable. *)
Fixpoint characters (s : string) : list JsVal :=
  match s with
  | EmptyString => []
  | String c s' => VStr (String c EmptyString) :: characters s'
  end.

(** *** [encodeURIComponent] *)

Definition hex_digit (n : N) : ascii :=
  ascii_of_N (if (n <? 10)%N then 48 + n else 55 + n)%N.

Definition uri_unreserved (c : ascii) : bool :=
  let n := N_of_ascii c in
  ((65 <=? n) && (n <=? 90) || (97 <=? n) && (n <=? 122)
   || (48 <=? n) && (n <=? 57))%N
  || existsb (Ascii.eqb c) (list_ascii_of_string "-_.!~*'()").

(** Strings are well-formed Unicode text held as UTF-8, so that escaping is
    byte by byte and never fails. *)
Fixpoint encodeURIComponent (s : string) : string :=
  match s with
  | EmptyString => EmptyString
  | String c s' =>
      if uri_unreserved c then String c (encodeURIComponent s')
      else
        let n := N_of_ascii c in
        String "%" (String (hex_digit (n / 16)) (String (hex_digit (n mod 16))
          (encodeURIComponent s')))
  end.

(** ** The environment *)

(** A [FormData] body, which [_fetch] passes through untouched. *)
Definition FormData : Type := list (string * string).

(** The second argument of [_fetch]: a value, or a [FormData] object. *)
Inductive Payload : Type :=
| PValue (v : JsVal)
| PForm (f : FormData).

(** The [body] handed to [fetch]: the text [JSON.stringify] made of a
    payload, a [FormData], or the payload itself when it is falsy. *)
Inductive Body : Type :=
| BodyJSON (j : Json)
| BodyForm (f : FormData)
| BodyValue (v : JsVal).

Record FetchInit : Type := {
  method : string;
  credentials : string;
  headers : list (string * string);
  body : Body
}.

(** A response: its status, and what [res.json()] makes of its body ([None]
    when the body is not JSON). *)
Record Response : Type := {
  status : Z;
  json : option Json
}.

(** Every call across the boundary, with the answer it got. *)
Inductive Event : Type :=
| EvFetch (path : string) (init : FetchInit) (res : result Response)
| EvCreate (options : JsVal) (res : result JsVal)
| EvGet (options : JsVal) (res : result JsVal)
| EvDecode (text : JsVal) (res : option (list byte))
| EvEncode (data : JsVal) (res : string)
| EvGetItem (key : string) (res : option string)
| EvSetItem (key value : string)
| EvRemoveItem (key : string)
| EvInfo (msg : string).

(** Modelled from the spec: the [base64url] codec, a library loaded beside
    [client.js] and absent from the sources.  [decode] turns text into
    binary and fails, with [MalformedEncodingError], on text that is not
    url-safe base64; [encode] turns binary into text and is total.  Both
    are functions of their argument alone. *)
Record Codec : Type := {
  base64url_decode : JsVal -> option (list byte);
  base64url_encode : JsVal -> string
}.

(** The collaborators.  The server and the authenticator may answer
    according to all that happened before. *)
Record Env : Type := {
  fetch : list Event -> string -> FetchInit -> result Response;
  credentials_create : list Event -> JsVal -> result JsVal;
  credentials_get : list Event -> JsVal -> result JsVal;
  base64url : Codec
}.

(** [localStorage] and the trace of the calls made so far. *)
Record World : Type := {
  storage : gmap string string;
  trace : list Event
}.

Definition start (st : gmap string string) : World :=
  {| storage := st; trace := [] |}.

(** ** Computations: state and exceptions *)

(** An [async] function body: a promise that resolves is [Ok], one that
    rejects is [Throw]; [await] is the bind.  What was done before a
    rejection stays done. *)
Definition M (A : Type) : Type := World -> result A * World.

Definition ret {A : Type} (a : A) : M A := fun w => (Ok a, w).

Definition throw {A : Type} (e : Exn) : M A := fun w => (Throw e, w).

Definition bind {A B : Type} (m : M A) (k : A -> M B) : M B :=
  fun w =>
    match m w with
    | (Ok a, w') => k a w'
    | (Throw e, w') => (Throw e, w')
    end.

Definition lift {A : Type} (r : result A) : M A := fun w => (r, w).

Notation "'let*' x ':=' m 'in' k" := (bind m (fun x => k))
  (at level 10, x name, m at level 100, k at level 200,
   format "'[v' 'let*'  x  ':='  m  'in' '/' k ']'").

Definition emit (e : Event) (w : World) : World :=
  {| storage := storage w; trace := trace w ++ [e] |}.

(** A loop body run on each element in turn, until one throws; the elements
    come back as the body left them. *)
Fixpoint for_each (body : JsVal -> M JsVal) (l : list JsVal) : M (list JsVal) :=
  match l with
  | [] => ret []
  | x :: l' =>
      let* x' := body x in
      let* r := for_each body l' in
      ret (x' :: r)
  end.

(** [for (let x of v) body]: [v] with its elements as the body left them. *)
Definition for_of (v : JsVal) (body : JsVal -> M JsVal) : M JsVal :=
  match v with
  | VArr items props =>
      let* items' := for_each body items in
      ret (VArr items' props)
  | VStr s =>
      let* _ := for_each body (characters s) in
      ret (VStr s)
  | _ => throw TypeError
  end.

Section Client.

Context (env : Env).

(** *** Calls to the environment *)

Definition window_fetch (path : string) (init : FetchInit) : M Response :=
  fun w =>
    let r := fetch env (trace w) path init in
    (r, emit (EvFetch path init r) w).

(** [res.json()] *)
Definition res_json (res : Response) : M JsVal :=
  match json res with
  | Some j => ret (of_json j)
  | None => throw SyntaxError
  end.

Definition navigator_credentials_create (options : JsVal) : M JsVal :=
  fun w =>
    let r := credentials_create env (trace w) options in
    (r, emit (EvCreate options r) w).

Definition navigator_credentials_get (options : JsVal) : M JsVal :=
  fun w =>
    let r := credentials_get env (trace w) options in
    (r, emit (EvGet options r) w).

Definition decode (text : JsVal) : M JsVal :=
  fun w =>
    let r := base64url_decode (base64url env) text in
    (match r with
     | Some data => Ok (VBuf data)
     | None => Throw MalformedEncodingError
     end, emit (EvDecode text r) w).

Definition encode (data : JsVal) : M JsVal :=
  fun w =>
    let r := base64url_encode (base64url env) data in
    (Ok (VStr r), emit (EvEncode data r) w).

(** [localStorage] is taken to be available and to have room: its calls
    do not throw. *)
Definition localStorage_getItem (key : string) : M JsVal :=
  fun w =>
    let r := storage w !! key in
    (Ok (match r with Some s => VStr s | None => VNull end),
     emit (EvGetItem key r) w).

(** The value is converted to a string before the call is made. *)
Definition localStorage_setItem (key : string) (value : JsVal) : M unit :=
  let* s := lift (to_string value) in
  fun w =>
    (Ok tt, {| storage := <[key := s]> (storage w);
               trace := trace w ++ [EvSetItem key s] |}).

Definition localStorage_removeItem (key : string) : M unit :=
  fun w =>
    (Ok tt, {| storage := delete key (storage w);
               trace := trace w ++ [EvRemoveItem key] |}).

Definition console_info (msg : string) : M unit :=
  fun w => (Ok tt, emit (EvInfo msg) w).

Definition get (v : JsVal) (k : string) : M JsVal := lift (get_prop v k).
Definition set (v : JsVal) (k : string) (x : JsVal) : M JsVal :=
  lift (set_prop v k x).

(** *** [_fetch] (lines 17-39) *)

(** Lines 17-24 and 26-29: the request made for a payload. *)
Definition request_init (payload : Payload) : FetchInit :=
  (* the default [payload = ""] replaces a missing or [undefined] argument *)
  let payload :=
    match payload with
    | PValue VUndef => PValue (VStr "")
    | _ => payload
    end in
  let headers := [("X-Requested-With", "XMLHttpRequest")] in
  let '(headers, payload) :=
    match payload with
    | PValue v =>
        if truthy v then
          (put "Content-Type" "application/json" headers,
           match to_json v with
           | Some j => BodyJSON j
           | None => BodyValue VUndef
           end)
        else (headers, BodyValue v)
    | PForm f => (headers, BodyForm f)
    end in
  {| method := "POST";
     credentials := "same-origin";
     headers := headers;
     body := payload |}.

Definition _fetch (path : string) (payload : Payload) : M JsVal :=
  let* res := window_fetch path (request_init payload) in
  if status res =? 200 then
    res_json res
  else
    let* result := res_json res in
    let* error := get result "error" in
    throw (Thrown error).

(** *** [registerCredential] (lines 46-106) *)

(** The body of both [for (let cred of ...)] loops:
    [cred.id = base64url.decode(cred.id)]. *)
Definition decode_id (cred : JsVal) : M JsVal :=
  let* id := get cred "id" in
  let* id := decode id in
  set cred "id" id.

(** Lines 72-78: the binary fields of the options, decoded in place. *)
Definition decode_creation_options (options : JsVal) : M JsVal :=
  (* options.user.id = base64url.decode(options.user.id) *)
  let* user := get options "user" in
  let* id := get user "id" in
  let* id := decode id in
  let* user := set user "id" id in
  let options := write_back options "user" user in
  (* options.challenge = base64url.decode(options.challenge) *)
  let* challenge := get options "challenge" in
  let* challenge := decode challenge in
  let* options := set options "challenge" challenge in
  let* excludeCredentials := get options "excludeCredentials" in
  if truthy excludeCredentials then
    let* excludeCredentials := for_of excludeCredentials decode_id in
    ret (write_back options "excludeCredentials" excludeCredentials)
  else ret options.

(** Lines 88-99: the object sent back to the server. *)
Definition encode_attestation (cred : JsVal) : M JsVal :=
  let credential := VObj [] in
  let* id := get cred "id" in
  let* credential := set credential "id" id in
  let* rawId := get cred "rawId" in
  let* rawId := encode rawId in
  let* credential := set credential "rawId" rawId in
  let* ty := get cred "type" in
  let* credential := set credential "type" ty in
  let* response := get cred "response" in
  if truthy response then
    let* clientDataJSON := get response "clientDataJSON" in
    let* clientDataJSON := encode clientDataJSON in
    let* attestationObject := get response "attestationObject" in
    let* attestationObject := encode attestationObject in
    set credential "response"
        (VObj [("clientDataJSON", clientDataJSON);
               ("attestationObject", attestationObject)])
  else ret credential.

(** Lines 47-66: the parameters sent with the request for options. *)
Definition creation_opts : JsVal :=
  VObj [("attestation", VStr "none");
        ("authenticatorSelection",
         VObj [("authenticatorAttachment", VStr "platform");
               ("userVerification", VStr "required");
               ("requireResistantKey", VBool false)])].

Definition registerCredential : M JsVal :=
  let opts := creation_opts in
  let* options := _fetch "/auth/registerRequest" (PValue opts) in
  let* options := decode_creation_options options in
  let* cred := navigator_credentials_create (VObj [("publicKey", options)]) in
  let* credential := encode_attestation cred in
  (* localStorage.setItem("credId", credential.id) *)
  let* id := get credential "id" in
  let* _ := localStorage_setItem "credId" id in
  _fetch "/auth/registerResponse" (PValue credential).

(** *** [unregisterCredential] (lines 110-113)

    [credId] is the text identifier of the credential; [_fetch] is called
    without a payload. *)
Definition unregisterCredential (credId : string) : M JsVal :=
  let* _ := localStorage_removeItem "credId" in
  _fetch ("/auth/removeKey?credId=" ++ encodeURIComponent credId)%string
         (PValue VUndef).

(** *** [authenticate] (lines 120-172) *)

(** Lines 142-146: the binary fields of the options, decoded in place. *)
Definition decode_request_options (options : JsVal) : M JsVal :=
  (* options.challenge = base64url.decode(options.challenge) *)
  let* challenge := get options "challenge" in
  let* challenge := decode challenge in
  let* options := set options "challenge" challenge in
  let* allowCredentials := get options "allowCredentials" in
  let* allowCredentials := for_of allowCredentials decode_id in
  ret (write_back options "allowCredentials" allowCredentials).

(** Lines 153-169: the object sent back to the server. *)
Definition encode_assertion (cred : JsVal) : M JsVal :=
  let credential := VObj [] in
  let* id := get cred "id" in
  let* credential := set credential "id" id in
  let* ty := get cred "type" in
  let* credential := set credential "type" ty in
  let* rawId := get cred "rawId" in
  let* rawId := encode rawId in
  let* credential := set credential "rawId" rawId in
  let* response := get cred "response" in
  if truthy response then
    let* clientDataJSON := get response "clientDataJSON" in
    let* clientDataJSON := encode clientDataJSON in
    let* authenticatorData := get response "authenticatorData" in
    let* authenticatorData := encode authenticatorData in
    let* signature := get response "signature" in
    let* signature := encode signature in
    let* userHandle := get response "userHandle" in
    let* userHandle := encode userHandle in
    set credential "response"
        (VObj [("clientDataJSON", clientDataJSON);
               ("authenticatorData", authenticatorData);
               ("signature", signature);
               ("userHandle", userHandle)])
  else ret credential.

(** Lines 123-128: the stored identifier, when there is one, goes into
    the query string. *)
Definition signin_url (credId : JsVal) : M string :=
  let url := "/auth/signinRequest" in
  if truthy credId then
    let* s := lift (to_string credId) in
    ret (url ++ "?credId=" ++ encodeURIComponent s)%string
  else ret url.

(** Lines 121-130: the request for options. *)
Definition request_options : M JsVal :=
  let opts := VObj [] in
  let* credId := localStorage_getItem "credId" in
  let* url := signin_url credId in
  _fetch url (PValue opts).

Definition authenticate : M JsVal :=
  let* options := request_options in
  let* allowCredentials := get options "allowCredentials" in
  let* length := get allowCredentials "length" in
  if strict_eq_num length 0 then
    let* _ := console_info "No registered credentials found." in
    ret VNull
  else
    let* options := decode_request_options options in
    let* cred := navigator_credentials_get (VObj [("publicKey", options)]) in
    let* credential := encode_assertion cred in
    _fetch "/auth/signinResponse" (PValue credential).

End Client.

(** ** A concrete environment

    A url-safe base64 codec without padding, a server that answers by path
    and an authenticator with a fixed answer: the environment of the
    examples below. *)
Module Demo.

Definition alphabet : list ascii :=
  list_ascii_of_string
    "ABCDEFGHIJKLMNOPQRSTUVWXYZabcdefghijklmnopqrstuvwxyz0123456789-_".

Fixpoint index_of (c : ascii) (l : list ascii) (i : N) : option N :=
  match l with
  | [] => None
  | c' :: l' => if Ascii.eqb c c' then Some i else index_of c l' (i + 1)%N
  end.

Definition sextet (c : ascii) : option N := index_of c alphabet 0%N.

Definition letter (n : N) : ascii := nth (N.to_nat n) alphabet "A"%char.

Definition octet (n : N) : byte :=
  match Byte.of_N (n mod 256) with
  | Some b => b
  | None => x00
  end.

Fixpoint sextets (s : string) : option (list N) :=
  match s with
  | EmptyString => Some []
  | String c s' =>
      match sextet c, sextets s' with
      | Some n, Some l => Some (n :: l)
      | _, _ => None
      end
  end.

Fixpoint unpack (l : list N) : option (list byte) :=
  match l with
  | [] => Some []
  | [ _ ] => None
  | [a; b] => Some [octet ((a * 64 + b) / 16)]
  | [a; b; c] =>
      let n := (a * 4096 + b * 64 + c)%N in
      Some [octet (n / 1024); octet (n / 4)]
  | a :: b :: c :: d :: rest =>
      let n := (a * 262144 + b * 4096 + c * 64 + d)%N in
      match unpack rest with
      | Some r => Some (octet (n / 65536) :: octet (n / 256) :: octet n :: r)
      | None => None
      end
  end.

Fixpoint pack (l : list byte) : list N :=
  match l with
  | [] => []
  | [x] =>
      let n := (Byte.to_N x * 16)%N in
      [n / 64; n mod 64]%N
  | [x; y] =>
      let n := ((Byte.to_N x * 256 + Byte.to_N y) * 4)%N in
      [n / 4096; (n / 64) mod 64; n mod 64]%N
  | x :: y :: z :: rest =>
      let n := (Byte.to_N x * 65536 + Byte.to_N y * 256 + Byte.to_N z)%N in
      [n / 262144; (n / 4096) mod 64; (n / 64) mod 64; n mod 64]%N
        ++ pack rest
  end.

Definition decode_text (text : JsVal) : option (list byte) :=
  match text with
  | VStr s =>
      match sextets s with
      | Some l => unpack l
      | None => None
      end
  | _ => None
  end.

Definition encode_data (data : JsVal) : string :=
  match data with
  | VBuf l => string_of_list_ascii (List.map letter (pack l))
  | _ => ""
  end.

Definition bytes (s : string) : list byte := list_byte_of_string s.

Definition env (server : string -> result Response)
    (authenticator : result JsVal) : Env :=
  {| fetch := fun _ path _ => server path;
     credentials_create := fun _ _ => authenticator;
     credentials_get := fun _ _ => authenticator;
     base64url := {| base64url_decode := decode_text;
                     base64url_encode := encode_data |} |}.

Definition ok (j : Json) : result Response :=
  Ok {| status := 200; json := Some j |}.

Definition failed (s : Z) (reason : string) : result Response :=
  Ok {| status := s; json := Some (JObj [("error", JStr reason)]) |}.

(** The server of the registration example of the spec. *)
Definition registration_server (path : string) : result Response :=
  if String.eqb path "/auth/registerRequest" then
    ok (JObj [("user", JObj [("id", JStr "dXNlcg")]);
              ("challenge", JStr "Y2hhbGxlbmdl");
              ("excludeCredentials", JArr [])])
  else ok (JObj [("ok", JBool true)]).

Definition attestation : JsVal :=
  VObj [("id", VStr "abc"); ("rawId", VBuf (bytes "abc"));
        ("type", VStr "public-key");
        ("response", VObj [("clientDataJSON", VBuf (bytes "{}"));
                           ("attestationObject", VBuf (bytes "att"))])].

(** The same server, refusing the verification. *)
Definition refusing_server (path : string) : result Response :=
  if String.eqb path "/auth/registerRequest" then
    registration_server path
  else failed 400 "bad challenge".

(** A credential without response bundle. *)
Definition bare_attestation : JsVal :=
  VObj [("id", VStr "abc"); ("rawId", VBuf (bytes "abc"));
        ("type", VStr "public-key")].

Definition creation_options : JsVal :=
  VObj [("publicKey",
         VObj [("user", VObj [("id", VBuf (bytes "user"))]);
               ("challenge", VBuf (bytes "challenge"));
               ("excludeCredentials", VArr [] [])])].

(** A server that knows two credentials of the user already. *)
Definition returning_options : Json :=
  JObj [("user", JObj [("id", JStr "dXNlcg")]);
        ("challenge", JStr "Y2hhbGxlbmdl");
        ("excludeCredentials",
         JArr [JObj [("id", JStr "YWJj"); ("type", JStr "public-key")];
               JObj [("id", JStr "YXR0"); ("type", JStr "public-key")]])].

Definition returning_server (path : string) : result Response :=
  if String.eqb path "/auth/registerRequest" then ok returning_options
  else ok (JObj [("ok", JBool true)]).

(** A server whose challenge is not url-safe base64. *)
Definition malformed_server (path : string) : result Response :=
  if String.eqb path "/auth/registerRequest" then
    ok (JObj [("user", JObj [("id", JStr "dXNlcg")]);
              ("challenge", JStr "not base64!!");
              ("excludeCredentials", JArr [])])
  else ok (JObj [("ok", JBool true)]).

(** Sign-in: the server finds no credential, and its challenge is
    malformed. *)
Definition no_credential_options : Json :=
  JObj [("challenge", JStr "not base64!!"); ("allowCredentials", JArr [])].

Definition no_credential_server (path : string) : result Response :=
  ok no_credential_options.

(** Sign-in: the server allows three credentials. *)
Definition allowed : list Json :=
  [JObj [("id", JStr "YWJj"); ("type", JStr "public-key")];
   JObj [("id", JStr "YXR0"); ("type", JStr "public-key")];
   JObj [("id", JStr "dXNlcg"); ("type", JStr "public-key")]].

Definition signin_options : Json :=
  JObj [("challenge", JStr "Y2hhbGxlbmdl"); ("allowCredentials", JArr allowed)].

Definition signin_server (path : string) : result Response :=
  if String.eqb path "/auth/signinResponse" then ok (JObj [("ok", JBool true)])
  else ok signin_options.

Definition assertion : JsVal :=
  VObj [("id", VStr "abc"); ("rawId", VBuf (bytes "abc"));
        ("type", VStr "public-key");
        ("response", VObj [("clientDataJSON", VBuf (bytes "{}"));
                           ("authenticatorData", VBuf (bytes "data"));
                           ("signature", VBuf (bytes "sig"));
                           ("userHandle", VBuf (bytes "user"))])].

Definition stored : gmap string string := {["credId" := "abc"]}.

End Demo.


(** ** Observations on a run *)

(** The world after further calls, none of them to [localStorage]. *)
Definition emit_all (evs : list Event) (w : World) : World :=
  {| storage := storage w; trace := trace w ++ evs |}.

Definition is_decode (e : Event) : bool :=
  match e with
  | EvDecode _ _ => true
  | _ => false
  end.

Definition is_failed_decode (e : Event) : bool :=
  match e with
  | EvDecode _ None => true
  | _ => false
  end.

Definition is_encode (e : Event) : bool :=
  match e with
  | EvEncode _ _ => true
  | _ => false
  end.

(** A call to [navigator.credentials.create] or [navigator.credentials.get]. *)
Definition is_platform_call (e : Event) : bool :=
  match e with
  | EvCreate _ _ | EvGet _ _ => true
  | _ => false
  end.

Definition is_set_item (e : Event) : bool :=
  match e with
  | EvSetItem _ _ => true
  | _ => false
  end.

Definition is_fetch (e : Event) : bool :=
  match e with
  | EvFetch _ _ _ => true
  | _ => false
  end.

(** A request to the endpoint [path]. *)
Definition is_request_to (path : string) (e : Event) : bool :=
  match e with
  | EvFetch p _ _ => String.eqb p path
  | _ => false
  end.

(** A request that carries nothing but its path: the body is empty (or
    absent) and no content type is announced. *)
Definition carries_no_payload (init : FetchInit) : bool :=
  match body init with
  | BodyValue (VStr "") | BodyValue VUndef | BodyValue VNull =>
      match own "Content-Type" (headers init) with
      | None => true
      | Some _ => false
      end
  | _ => false
  end.

(** A request in the style of a GET: that method, and no body at all. *)
Definition has_no_body (init : FetchInit) : bool :=
  match body init with
  | BodyValue VUndef | BodyValue VNull => true
  | _ => false
  end.

Definition is_get_style (init : FetchInit) : bool :=
  String.eqb (method init) "GET" && has_no_body init.

(** The removal request of an unregistration is in the style of a GET. *)
Definition removal_is_get_style
    (env : Env) (credId : string) (st : gmap string string) : Prop :=
  exists init res,
    In (EvFetch ("/auth/removeKey?credId=" ++ encodeURIComponent credId)%string
          init res)
       (trace (unregisterCredential env credId (start st)).2)
    /\ is_get_style init = true.

(** The member [k] of a JSON object. *)
Definition member (k : string) (j : Json) : option Json :=
  match j with
  | JObj members => own k members
  | _ => None
  end.

(** The resident-key requirement that ceremony parameters express under
    the member name of the WebAuthn standard, [requireResidentKey]; it is
    [false] unless that member is there and [true]. *)
Definition requires_resident_key (params : Json) : bool :=
  match member "authenticatorSelection" params with
  | Some selection =>
      match member "requireResidentKey" selection with
      | Some (JBool b) => b
      | _ => false
      end
  | None => false
  end.

(** What lines 31-38 make of the answer of the network. *)
Definition settle (r : result Response) : result JsVal :=
  match r with
  | Throw e => Throw e
  | Ok res =>
      match json res with
      | None => Throw SyntaxError
      | Some j =>
          if status res =? 200 then Ok (of_json j)
          else
            match get_prop (of_json j) "error" with
            | Ok v => Throw (Thrown v)
            | Throw e => Throw e
            end
      end
  end.

(** [v.k], [undefined] when the read itself fails. *)
Definition field (v : JsVal) (k : string) : JsVal :=
  match get_prop v k with
  | Ok x => x
  | Throw _ => VUndef
  end.

(** C4 in the words of the specification: whatever response the request
    gets, a status 200 resolves with the parsed JSON body, and any other
    status rejects with the [error] field of the parsed body. *)
Definition settles_by_status_alone
    (env : Env) (path : string) (payload : Payload) (w : World) : Prop :=
  forall res,
    fetch env (trace w) path (request_init payload) = Ok res ->
    exists j,
      json res = Some j
      /\ (_fetch env path payload w).1
         = (if status res =? 200 then Ok (of_json j)
            else Throw (Thrown (field (of_json j) "error"))).

(** The event of decoding the field [k] of [v]. *)
Definition decoding (env : Env) (k : string) (v : JsVal) : Event :=
  EvDecode (field v k) (base64url_decode (base64url env) (field v k)).

(** [v] is an object (or an array) whose field [k] the codec decodes. *)
Definition decodable (env : Env) (k : string) (v : JsVal) : bool :=
  match v with
  | VObj _ | VArr _ _ =>
      match base64url_decode (base64url env) (field v k) with
      | Some _ => true
      | None => false
      end
  | _ => false
  end.

(** [v] with its field [k] replaced by the binary it decodes to. *)
Definition decoded (env : Env) (k : string) (v : JsVal) : JsVal :=
  match base64url_decode (base64url env) (field v k) with
  | Some data => write_back v k (VBuf data)
  | None => v
  end.

(** A run that only decodes: it made the calls [evs], all of them to
    [decode], and either ended with [MalformedEncodingError] or saw every
    decoding succeed. *)
Definition decoding_run {A : Type} (r : result A) (evs : list Event) : Prop :=
  Forall (fun e => is_decode e = true) evs /\
  (r = Throw MalformedEncodingError \/
   Forall (fun e => is_failed_decode e = false) evs).

(** A computation that only decodes, and one that only encodes; neither
    touches [localStorage]. *)
Definition decodes_only {A : Type} (m : M A) : Prop :=
  forall w, exists r evs, m w = (r, emit_all evs w) /\ decoding_run r evs.

Definition encodes_only {A : Type} (m : M A) : Prop :=
  forall w, exists r evs,
    m w = (r, emit_all evs w) /\ Forall (fun e => is_encode e = true) evs.

(** The elements of an array. *)
Definition entries (v : JsVal) : list JsVal :=
  match v with
  | VArr items _ => items
  | _ => []
  end.

(** An array with the [id] of every element decoded. *)
Definition decoded_entries (env : Env) (v : JsVal) : JsVal :=
  match v with
  | VArr items props => VArr (List.map (decoded env "id") items) props
  | _ => v
  end.

(** An array whose elements all have an [id] the codec decodes. *)
Definition decodable_entries (env : Env) (v : JsVal) : bool :=
  match v with
  | VArr items _ => forallb (decodable env "id") items
  | _ => false
  end.

(** Options for [create] all of whose binary fields decode: [user.id],
    [challenge], and the [id] of every excluded credential, when the list
    is there. *)
Definition creation_options_decodable (env : Env) (options : JsVal) : bool :=
  decodable env "id" (field options "user")
  && decodable env "challenge" options
  && (negb (truthy (field options "excludeCredentials"))
      || decodable_entries env (field options "excludeCredentials")).

(** Those options with the binary fields in place of their text. *)
Definition decoded_creation_options (env : Env) (options : JsVal) : JsVal :=
  let options :=
    write_back options "user" (decoded env "id" (field options "user")) in
  let options := decoded env "challenge" options in
  let excludeCredentials := field options "excludeCredentials" in
  if truthy excludeCredentials then
    write_back options "excludeCredentials"
      (decoded_entries env excludeCredentials)
  else options.

(** The calls to [decode] this takes, in order. *)
Definition creation_decodings (env : Env) (options : JsVal) : list Event :=
  decoding env "id" (field options "user")
    :: decoding env "challenge" options
    :: List.map (decoding env "id")
         (entries (field options "excludeCredentials")).

(** The same for the options of [get]: [challenge] and the [id] of every
    allowed credential. *)
Definition request_options_decodable (env : Env) (options : JsVal) : bool :=
  decodable env "challenge" options
  && decodable_entries env (field options "allowCredentials").

Definition decoded_request_options (env : Env) (options : JsVal) : JsVal :=
  let options := decoded env "challenge" options in
  write_back options "allowCredentials"
    (decoded_entries env (field options "allowCredentials")).

Definition request_decodings (env : Env) (options : JsVal) : list Event :=
  decoding env "challenge" options
    :: List.map (decoding env "id")
         (entries (field options "allowCredentials")).

(** A computation whose calls all satisfy [P]. *)
Definition emits {A : Type} (P : Event -> Prop) (m : M A) : Prop :=
  forall w, exists evs, trace (m w).2 = trace w ++ evs /\ Forall P evs.

(** The members [JSON.stringify] writes for an object. *)
Fixpoint json_members (props : list (string * JsVal)) : list (string * Json) :=
  match props with
  | [] => []
  | (k, x) :: ps =>
      match to_json x with
      | Some j => (k, j) :: json_members ps
      | None => json_members ps
      end
  end.

(** [binary] is the buffer that the codec decodes [text] to. *)
Definition decodes_to (env : Env) (text binary : JsVal) : Prop :=
  exists data,
    base64url_decode (base64url env) text = Some data /\ binary = VBuf data.

(** The [id] of [cred'] is the binary form of the [id] of [cred]. *)
Definition id_decoded (env : Env) (cred cred' : JsVal) : Prop :=
  decodes_to env (field cred "id") (field cred' "id").

(** ** The stages of a ceremony *)

(** The collaborator an event is a call to. *)
Inductive Kind : Type :=
| KFetch | KCreate | KGet | KDecode | KEncode
| KGetItem | KSetItem | KRemoveItem | KInfo.

Definition kind (e : Event) : Kind :=
  match e with
  | EvFetch _ _ _ => KFetch
  | EvCreate _ _ => KCreate
  | EvGet _ _ => KGet
  | EvDecode _ _ => KDecode
  | EvEncode _ _ => KEncode
  | EvGetItem _ _ => KGetItem
  | EvSetItem _ _ => KSetItem
  | EvRemoveItem _ => KRemoveItem
  | EvInfo _ => KInfo
  end.

Definition kind_eqb (a b : Kind) : bool :=
  match a, b with
  | KFetch, KFetch | KCreate, KCreate | KGet, KGet | KDecode, KDecode
  | KEncode, KEncode | KGetItem, KGetItem | KSetItem, KSetItem
  | KRemoveItem, KRemoveItem | KInfo, KInfo => true
  | _, _ => false
  end.

(** The event is a call to one of the collaborators [ks]. *)
Definition of_kinds (ks : list Kind) (e : Event) : bool :=
  existsb (kind_eqb (kind e)) ks.

(** The number of calls to the collaborator [k]. *)
Definition calls (k : Kind) (tr : list Event) : nat :=
  length (List.filter (fun e => kind_eqb (kind e) k) tr).

(** The path of the request for sign-in options, given what the slot
    [credId] holds (lines 123-128). *)
Definition signin_path (stored : option string) : string :=
  match stored with
  | Some s =>
      if String.eqb s "" then "/auth/signinRequest"
      else ("/auth/signinRequest?credId=" ++ encodeURIComponent s)%string
  | None => "/auth/signinRequest"
  end.

(** The request for registration options, with its answer. *)
Definition creation_request (r : result Response) : Event :=
  EvFetch "/auth/registerRequest" (request_init (PValue creation_opts)) r.

(** The request for sign-in options, with its answer. *)
Definition signin_request (stored : option string) (r : result Response)
  : Event :=
  EvFetch (signin_path stored) (request_init (PValue (VObj []))) r.

(** Every way a registration can go, by the stage at which it ends: the
    outcome, and the world it leaves behind. *)
Inductive RegisterRun (env : Env) (st : gmap string string)
  : result JsVal -> World -> Prop :=
| reg_options_rejected r0 e :
    settle r0 = Throw e ->
    RegisterRun env st (Throw e)
      {| storage := st; trace := [creation_request r0] |}
| reg_decoding_failed r0 options decs e :
    settle r0 = Ok options ->
    decoding_run (@Throw JsVal e) decs ->
    RegisterRun env st (Throw e)
      {| storage := st; trace := creation_request r0 :: decs |}
| reg_platform_rejected r0 options decs options' e :
    settle r0 = Ok options ->
    decoding_run (Ok options') decs ->
    RegisterRun env st (Throw e)
      {| storage := st;
         trace := creation_request r0
                    :: decs ++ [EvCreate (VObj [("publicKey", options')])
                                  (Throw e)] |}
| reg_encoding_failed r0 options decs options' cred encs e :
    settle r0 = Ok options ->
    decoding_run (Ok options') decs ->
    Forall (fun e => is_encode e = true) encs ->
    (get_prop cred "id" = Throw e /\ encs = []
     \/ exists id, get_prop cred "id" = Ok id /\ to_string id = Throw e) ->
    RegisterRun env st (Throw e)
      {| storage := st;
         trace := creation_request r0
                    :: decs ++ EvCreate (VObj [("publicKey", options')])
                                 (Ok cred) :: encs |}
| reg_submitted r0 options decs options' cred credential encs id s res :
    settle r0 = Ok options ->
    decoding_run (Ok options') decs ->
    get_prop cred "id" = Ok id ->
    to_string id = Ok s ->
    (forall w, encode_attestation env cred w
               = (Ok credential, emit_all encs w)) ->
    Forall (fun e => is_encode e = true) encs ->
    RegisterRun env st (settle res)
      {| storage := <["credId" := s]> st;
         trace := creation_request r0
                    :: decs ++ EvCreate (VObj [("publicKey", options')])
                                 (Ok cred)
                    :: encs ++ [EvSetItem "credId" s;
                                EvFetch "/auth/registerResponse"
                                  (request_init (PValue credential)) res] |}.

(** The same for an authentication. *)
Inductive AuthRun (env : Env) (st : gmap string string)
  : result JsVal -> World -> Prop :=
| auth_options_rejected r0 e :
    settle r0 = Throw e ->
    AuthRun env st (Throw e)
      {| storage := st;
         trace := [EvGetItem "credId" (st !! "credId");
                   signin_request (st !! "credId") r0] |}
| auth_options_malformed r0 options e :
    settle r0 = Ok options ->
    (get_prop options "allowCredentials" = Throw e
     \/ get_prop (field options "allowCredentials") "length" = Throw e) ->
    AuthRun env st (Throw e)
      {| storage := st;
         trace := [EvGetItem "credId" (st !! "credId");
                   signin_request (st !! "credId") r0] |}
| auth_no_credential r0 options :
    settle r0 = Ok options ->
    strict_eq_num (field (field options "allowCredentials") "length") 0
    = true ->
    AuthRun env st (Ok VNull)
      {| storage := st;
         trace := [EvGetItem "credId" (st !! "credId");
                   signin_request (st !! "credId") r0;
                   EvInfo "No registered credentials found."] |}
| auth_decoding_failed r0 options decs e :
    settle r0 = Ok options ->
    decoding_run (@Throw JsVal e) decs ->
    AuthRun env st (Throw e)
      {| storage := st;
         trace := EvGetItem "credId" (st !! "credId")
                    :: signin_request (st !! "credId") r0 :: decs |}
| auth_platform_rejected r0 options decs options' e :
    settle r0 = Ok options ->
    decoding_run (Ok options') decs ->
    AuthRun env st (Throw e)
      {| storage := st;
         trace := EvGetItem "credId" (st !! "credId")
                    :: signin_request (st !! "credId") r0
                    :: decs ++ [EvGet (VObj [("publicKey", options')])
                                  (Throw e)] |}
| auth_encoding_failed r0 options decs options' cred e :
    settle r0 = Ok options ->
    decoding_run (Ok options') decs ->
    get_prop cred "id" = Throw e ->
    AuthRun env st (Throw e)
      {| storage := st;
         trace := EvGetItem "credId" (st !! "credId")
                    :: signin_request (st !! "credId") r0
                    :: decs ++ [EvGet (VObj [("publicKey", options')])
                                  (Ok cred)] |}
| auth_submitted r0 options decs options' cred credential encs id res :
    settle r0 = Ok options ->
    decoding_run (Ok options') decs ->
    get_prop cred "id" = Ok id ->
    (forall w, encode_assertion env cred w
               = (Ok credential, emit_all encs w)) ->
    Forall (fun e => is_encode e = true) encs ->
    AuthRun env st (settle res)
      {| storage := st;
         trace := EvGetItem "credId" (st !! "credId")
                    :: signin_request (st !! "credId") r0
                    :: decs ++ EvGet (VObj [("publicKey", options')])
                                 (Ok cred)
                    :: encs ++ [EvFetch "/auth/signinResponse"
                                  (request_init (PValue credential)) res] |}.

(** ** Runs of the blocks *)

Lemma emit_all_nil w : emit_all [] w = w.
Proof. destruct w; unfold emit_all; simpl. by rewrite app_nil_r. Qed.

Lemma emit_all_app evs1 evs2 w :
  emit_all evs2 (emit_all evs1 w) = emit_all (evs1 ++ evs2) w.
Proof. unfold emit_all; simpl. by rewrite app_assoc. Qed.

Lemma emit_emit_all e w : emit e w = emit_all [e] w.
Proof. reflexivity. Qed.

Lemma emit_all_cons e evs w : emit_all evs (emit e w) = emit_all (e :: evs) w.
Proof. rewrite emit_emit_all, emit_all_app. reflexivity. Qed.

Lemma fetch_run env path payload w :
  _fetch env path payload w =
    (settle (fetch env (trace w) path (request_init payload)),
     emit (EvFetch path (request_init payload)
             (fetch env (trace w) path (request_init payload))) w).
Proof.
  unfold _fetch, bind, window_fetch, settle.
  destruct (fetch env (trace w) path (request_init payload)) as [res|e];
    [|done].
  unfold res_json, get, lift, throw, ret.
  destruct (json res) as [j|]; destruct (status res =? 200); try done.
  destruct (get_prop (of_json j) "error"); done.
Qed.

Lemma decode_id_ok env cred w :
  decodable env "id" cred = true ->
  decode_id env cred w =
    (Ok (decoded env "id" cred), emit (decoding env "id" cred) w).
Proof.
  unfold decodable, decode_id, decoded, decoding, field, bind, get, set,
    lift, decode.
  destruct cred; try done; simpl;
    destruct (base64url_decode (base64url env) _); done.
Qed.

Lemma for_each_decode_id_ok env items w :
  forallb (decodable env "id") items = true ->
  for_each (decode_id env) items w =
    (Ok (List.map (decoded env "id") items),
     emit_all (List.map (decoding env "id") items) w).
Proof.
  revert w. induction items as [|cred items IH]; intros w Hall; simpl.
  - by rewrite emit_all_nil.
  - apply andb_prop in Hall as [Hcred Hall].
    unfold bind at 1. rewrite (decode_id_ok _ _ _ Hcred).
    unfold bind at 1. rewrite (IH _ Hall). unfold ret.
    by rewrite emit_all_cons.
Qed.

Lemma decoding_run_nil {A : Type} (r : result A) : decoding_run r [].
Proof. split; [|right]; constructor. Qed.

Lemma decoding_run_throw {A B : Type} (r : result A) e evs :
  decoding_run r evs -> r = Throw e -> decoding_run (@Throw B e) evs.
Proof.
  intros [Hd [->|Hs]] Hr; split; auto.
  left. congruence.
Qed.

Lemma decoding_run_app {A B : Type} (a : A) (r : result B) evs1 evs2 :
  decoding_run (Ok a) evs1 -> decoding_run r evs2 ->
  decoding_run r (evs1 ++ evs2).
Proof.
  intros [Hd1 [?|Hs1]] [Hd2 Hs2]; [done|].
  split; [by apply Forall_app|].
  destruct Hs2 as [->|Hs2]; [by left|right; by apply Forall_app].
Qed.

Lemma decode_any env text w :
  let e := EvDecode text (base64url_decode (base64url env) text) in
  exists r, decode env text w = (r, emit_all [e] w) /\ decoding_run r [e].
Proof.
  unfold decode. eexists; split; [reflexivity|].
  split; [by repeat constructor|].
  destruct (base64url_decode (base64url env) text);
    [right; by repeat constructor|by left].
Qed.

Lemma decode_id_any env cred w :
  exists r evs,
    decode_id env cred w = (r, emit_all evs w) /\ decoding_run r evs.
Proof.
  unfold decode_id, bind, get, set, lift.
  destruct (get_prop cred "id") as [id|e].
  - destruct (decode_any env id w) as (r & -> & Hr).
    destruct r as [id'|e].
    + exists (set_prop cred "id" id'); eexists; split; [reflexivity|].
      destruct Hr as [Hd [?|Hs]]; [done|]. split; [done|by right].
    + eauto.
  - exists (Throw e), []. rewrite emit_all_nil.
    split; [done|apply decoding_run_nil].
Qed.

Lemma for_each_decode_id_any env items w :
  exists r evs,
    for_each (decode_id env) items w = (r, emit_all evs w)
    /\ decoding_run r evs.
Proof.
  revert w. induction items as [|cred items IH]; intros w; simpl.
  - exists (Ok []), []. rewrite emit_all_nil.
    split; [done|apply decoding_run_nil].
  - unfold bind at 1.
    destruct (decode_id_any env cred w) as (r1 & evs1 & -> & H1).
    destruct r1 as [cred'|e];
      [|eexists; eexists; split; [reflexivity|by eapply decoding_run_throw]].
    unfold bind at 1.
    destruct (IH (emit_all evs1 w)) as (r2 & evs2 & -> & H2).
    rewrite emit_all_app.
    destruct r2 as [items'|e]; unfold ret; eexists; eexists;
      (split; [reflexivity|]).
    + destruct (decoding_run_app _ _ _ _ H1 H2) as [Hd [?|Hs]]; [done|].
      split; [done|by right].
    + eapply decoding_run_app; [exact H1|]. by eapply decoding_run_throw.
Qed.

Lemma for_of_decode_id_any env v w :
  exists r evs,
    for_of v (decode_id env) w = (r, emit_all evs w) /\ decoding_run r evs.
Proof.
  assert (Hnone : exists r evs,
             @throw JsVal TypeError w = (r, emit_all evs w)
             /\ decoding_run r evs).
  { exists (Throw TypeError), []. rewrite emit_all_nil.
    split; [done|apply decoding_run_nil]. }
  destruct v; simpl; try exact Hnone; unfold bind, ret.
  - destruct (for_each_decode_id_any env (characters s) w)
      as (r & evs & -> & H).
    destruct r; eexists; eexists; (split; [reflexivity|]).
    + destruct H as [Hd [?|Hs]]; [done|]. split; [done|by right].
    + by eapply decoding_run_throw.
  - destruct (for_each_decode_id_any env items w) as (r & evs & -> & H).
    destruct r; eexists; eexists; (split; [reflexivity|]).
    + destruct H as [Hd [?|Hs]]; [done|]. split; [done|by right].
    + by eapply decoding_run_throw.
Qed.

(** *** Own properties *)

Lemma own_put_eq {A : Type} k (v : A) ps : own k (put k v ps) = Some v.
Proof.
  induction ps as [|[k' v'] ps IH]; simpl.
  - by rewrite String.eqb_refl.
  - destruct (String.eqb k k') eqn:E; simpl.
    + by rewrite String.eqb_refl.
    + by rewrite E.
Qed.

Lemma own_put_ne {A : Type} k k' (v : A) ps :
  String.eqb k' k = false -> own k' (put k v ps) = own k' ps.
Proof.
  intros Hne. induction ps as [|[k0 v0] ps IH]; simpl.
  - by rewrite Hne.
  - destruct (String.eqb k k0) eqn:E; simpl.
    + apply String.eqb_eq in E as <-. by rewrite Hne.
    + by rewrite IH.
Qed.

Lemma field_write_back_ne v k k' x :
  String.eqb k' k = false ->
  field (write_back v k x) k' = field v k'.
Proof.
  intros Hne. destruct v; try done; unfold field; simpl.
  - destruct (String.eqb k' "length"); [done|]. by rewrite own_put_ne.
  - by rewrite own_put_ne.
Qed.

Lemma field_write_back_eq v k x :
  match v with VObj _ | VArr _ _ => true | _ => false end = true ->
  String.eqb k "length" = false ->
  field (write_back v k x) k = x.
Proof.
  intros Hv Hk. destruct v; try done; unfold field; simpl.
  - by rewrite Hk, own_put_eq.
  - by rewrite own_put_eq.
Qed.

Lemma decoded_field env k v :
  decodable env k v = true ->
  String.eqb k "length" = false ->
  decodes_to env (field v k) (field (decoded env k v) k).
Proof.
  intros Hv Hk. unfold decoded, decodes_to. unfold decodable in Hv.
  destruct (base64url_decode (base64url env) (field v k)) as [data|];
    [|by destruct v].
  exists data. split; [done|].
  apply field_write_back_eq; [by destruct v|done].
Qed.

Lemma decoded_field_ne env k k' v :
  String.eqb k' k = false ->
  field (decoded env k v) k' = field v k'.
Proof.
  intros Hk. unfold decoded.
  destruct (base64url_decode (base64url env) (field v k)); [|done].
  by apply field_write_back_ne.
Qed.

Lemma decoded_ids env items :
  forallb (decodable env "id") items = true ->
  Forall2 (id_decoded env) items (List.map (decoded env "id") items).
Proof.
  induction items as [|c items IH]; simpl; [constructor|].
  intros Hall. apply andb_prop in Hall as [Hc Hall].
  constructor; [by apply decoded_field|by apply IH].
Qed.

Lemma decoded_entries_ids env v :
  decodable_entries env v = true ->
  Forall2 (id_decoded env) (entries v) (entries (decoded_entries env v)).
Proof. destruct v; try done. apply decoded_ids. Qed.

Lemma decodable_get env k v :
  decodable env k v = true -> get_prop v k = Ok (field v k).
Proof.
  unfold field. destruct v; try done; simpl; by destruct (String.eqb _ _).
Qed.

Lemma decodable_write_back env k k' v x :
  String.eqb k k' = false ->
  decodable env k (write_back v k' x) = decodable env k v.
Proof.
  intros Hne. destruct v; try done; unfold decodable;
    by rewrite field_write_back_ne.
Qed.

(** *** Decoding blocks *)

Lemma decodes_only_bind {A B : Type} (m : M A) (k : A -> M B) :
  decodes_only m -> (forall a, decodes_only (k a)) -> decodes_only (bind m k).
Proof.
  intros Hm Hk w. unfold bind.
  destruct (Hm w) as (r1 & evs1 & -> & H1).
  destruct r1 as [a|e].
  - destruct (Hk a (emit_all evs1 w)) as (r2 & evs2 & -> & H2).
    rewrite emit_all_app. eexists; eexists; split; [reflexivity|].
    by eapply decoding_run_app.
  - eexists; eexists; split; [reflexivity|]. by eapply decoding_run_throw.
Qed.

Lemma decodes_only_lift {A : Type} (r : result A) : decodes_only (lift r).
Proof.
  intros w. exists r, []. unfold lift. rewrite emit_all_nil.
  split; [done|apply decoding_run_nil].
Qed.

Lemma decodes_only_decode env text : decodes_only (decode env text).
Proof. intros w. destruct (decode_any env text w) as (r & ? & ?); eauto. Qed.

Lemma decodes_only_for_of env v : decodes_only (for_of v (decode_id env)).
Proof. intros w. apply for_of_decode_id_any. Qed.

Lemma decode_creation_options_any env options :
  decodes_only (decode_creation_options env options).
Proof.
  unfold decode_creation_options, get, set.
  repeat (apply decodes_only_bind; intros;
          [first [apply decodes_only_lift | apply decodes_only_decode]|]).
  destruct (truthy _); [|apply (decodes_only_lift (Ok _))].
  apply decodes_only_bind; [apply decodes_only_for_of|].
  intros. apply (decodes_only_lift (Ok _)).
Qed.

Lemma decode_field_then {B : Type} env k v (rest : JsVal -> M B) w :
  decodable env k v = true ->
  (let* x := get v k in
   let* x := decode env x in
   let* v' := set v k x in
   rest v') w =
    rest (decoded env k v) (emit (decoding env k v) w).
Proof.
  intros Hv. unfold bind, get, set, lift, decode, decoding, decoded.
  rewrite (decodable_get _ _ _ Hv).
  unfold decodable in Hv.
  destruct (base64url_decode (base64url env) (field v k)) as [data|];
    by destruct v.
Qed.

Lemma for_of_decode_id_ok env v w :
  decodable_entries env v = true ->
  for_of v (decode_id env) w =
    (Ok (decoded_entries env v),
     emit_all (List.map (decoding env "id") (entries v)) w).
Proof.
  destruct v; try done; simpl. intros Hall.
  unfold bind. by rewrite for_each_decode_id_ok.
Qed.

Lemma decode_creation_options_ok env options w :
  creation_options_decodable env options = true ->
  decode_creation_options env options w =
    (Ok (decoded_creation_options env options),
     emit_all (creation_decodings env options) w).
Proof.
  unfold creation_options_decodable. intros Hok.
  apply andb_prop in Hok as [Hok Hex]. apply andb_prop in Hok as [Huser Hch].
  unfold decode_creation_options, decoded_creation_options, creation_decodings.
  unfold bind at 1. unfold get at 1, lift.
  assert (Hget : get_prop options "user" = Ok (field options "user")).
  { unfold field. destruct options; done. }
  rewrite Hget.
  rewrite (decode_field_then env "id" _ _ w Huser).
  set (options1 := write_back options "user" _).
  assert (Hch1 : decodable env "challenge" options1 = true).
  { unfold options1. by rewrite decodable_write_back. }
  rewrite (decode_field_then env "challenge" _ _ _ Hch1).
  set (options2 := decoded env "challenge" options1).
  assert (Hdec1 : decoding env "challenge" options1
                  = decoding env "challenge" options).
  { unfold decoding, options1. by rewrite field_write_back_ne. }
  assert (Hex2 : field options2 "excludeCredentials"
                 = field options "excludeCredentials").
  { unfold options2, decoded.
    destruct (base64url_decode (base64url env) _);
      unfold options1; by rewrite !field_write_back_ne. }
  assert (Hobj : get_prop options2 "excludeCredentials"
                 = Ok (field options2 "excludeCredentials")).
  { unfold field, options2, decoded, options1.
    destruct (base64url_decode (base64url env) _); destruct options; done. }
  unfold bind at 1. unfold get at 1, lift. rewrite Hobj, Hex2, Hdec1.
  rewrite !emit_emit_all, emit_all_app.
  destruct (truthy (field options "excludeCredentials")) eqn:Htruthy;
    simpl in Hex.
  - unfold bind. rewrite (for_of_decode_id_ok _ _ _ Hex). unfold ret.
    by rewrite emit_all_app.
  - unfold ret. by destruct (field options "excludeCredentials").
Qed.

Lemma decode_request_options_ok env options w :
  request_options_decodable env options = true ->
  decode_request_options env options w =
    (Ok (decoded_request_options env options),
     emit_all (request_decodings env options) w).
Proof.
  unfold request_options_decodable. intros Hok.
  apply andb_prop in Hok as [Hch Hallow].
  unfold decode_request_options, decoded_request_options, request_decodings.
  rewrite (decode_field_then env "challenge" _ _ _ Hch).
  set (options1 := decoded env "challenge" options).
  assert (Hallow1 : field options1 "allowCredentials"
                    = field options "allowCredentials").
  { unfold options1, decoded.
    destruct (base64url_decode (base64url env) _);
      by rewrite ?field_write_back_ne. }
  assert (Hobj : get_prop options1 "allowCredentials"
                 = Ok (field options1 "allowCredentials")).
  { unfold field, options1, decoded.
    destruct (base64url_decode (base64url env) _); destruct options; done. }
  unfold bind at 1. unfold get at 1, lift. rewrite Hobj, Hallow1.
  unfold bind. rewrite (for_of_decode_id_ok _ _ _ Hallow). unfold ret.
  by rewrite emit_all_cons.
Qed.

(** *** Encoding blocks *)

Lemma encodes_only_bind {A B : Type} (m : M A) (k : A -> M B) :
  encodes_only m -> (forall a, encodes_only (k a)) -> encodes_only (bind m k).
Proof.
  intros Hm Hk w. unfold bind.
  destruct (Hm w) as (r1 & evs1 & -> & H1).
  destruct r1 as [a|e].
  - destruct (Hk a (emit_all evs1 w)) as (r2 & evs2 & -> & H2).
    rewrite emit_all_app. eexists; eexists; split; [reflexivity|].
    by apply Forall_app.
  - by eexists; eexists.
Qed.

Lemma encodes_only_lift {A : Type} (r : result A) : encodes_only (lift r).
Proof.
  intros w. exists r, []. unfold lift. by rewrite emit_all_nil.
Qed.

Lemma encodes_only_encode env data : encodes_only (encode env data).
Proof.
  intros w. eexists; eexists; split; [reflexivity|]. by repeat constructor.
Qed.

Lemma encode_attestation_any env cred :
  encodes_only (encode_attestation env cred).
Proof.
  unfold encode_attestation, get, set.
  repeat (apply encodes_only_bind; intros;
          [first [apply encodes_only_lift | apply encodes_only_encode]|]).
  destruct (truthy _); [|apply (encodes_only_lift (Ok _))].
  repeat (apply encodes_only_bind; intros;
          [first [apply encodes_only_lift | apply encodes_only_encode]|]).
  apply encodes_only_lift.
Qed.

(** A credential that has an [id] (it is neither [null] nor [undefined])
    always gets encoded, and the object sent carries that [id]. *)
Lemma encode_attestation_some env cred id w :
  get_prop cred "id" = Ok id ->
  exists credential evs,
    encode_attestation env cred w = (Ok credential, emit_all evs w)
    /\ Forall (fun e => is_encode e = true) evs
    /\ get_prop credential "id" = Ok id.
Proof.
  intros Hid.
  assert (Hget : forall k, get_prop cred k = Ok (field cred k)).
  { intros k. unfold field. destruct cred; try done; simpl;
      by destruct (String.eqb k "length"). }
  unfold encode_attestation, bind, get, set, lift, encode, ret.
  rewrite Hid, !Hget. simpl.
  destruct (truthy (field cred "response")) eqn:Hresp.
  - assert (Hget' : forall k, get_prop (field cred "response") k
                              = Ok (field (field cred "response") k)).
    { intros k. unfold field at 2.
      destruct (field cred "response"); try done; simpl;
        by destruct (String.eqb k "length"). }
    rewrite !Hget'. simpl.
    eexists; eexists; split;
      [rewrite !emit_emit_all, !emit_all_app; reflexivity|].
    split; [by repeat constructor|done].
  - eexists; eexists; split; [rewrite !emit_emit_all; reflexivity|].
    split; [by repeat constructor|done].
Qed.

(** Without a response bundle only [rawId] is encoded, and the object sent
    has three members. *)
Lemma encode_attestation_absent env cred id w :
  get_prop cred "id" = Ok id ->
  truthy (field cred "response") = false ->
  encode_attestation env cred w =
    (Ok (VObj [("id", id);
               ("rawId",
                VStr (base64url_encode (base64url env) (field cred "rawId")));
               ("type", field cred "type")]),
     emit (EvEncode (field cred "rawId")
             (base64url_encode (base64url env) (field cred "rawId"))) w).
Proof.
  intros Hid Hresp.
  assert (Hget : forall k, get_prop cred k = Ok (field cred k)).
  { intros k. unfold field. destruct cred; try done; simpl;
      by destruct (String.eqb k "length"). }
  unfold encode_attestation, bind, get, set, lift, encode, ret.
  rewrite Hid, !Hget. simpl. by rewrite Hresp.
Qed.

(** *** What a computation may emit *)

Lemma emits_lift {A : Type} P (r : result A) : emits P (lift r).
Proof. intros w. exists []. simpl. by rewrite app_nil_r. Qed.

Lemma emits_bind {A B : Type} P (m : M A) (k : A -> M B) :
  emits P m -> (forall a, emits P (k a)) -> emits P (bind m k).
Proof.
  intros Hm Hk w. unfold bind.
  destruct (Hm w) as (evs1 & Htr1 & H1).
  destruct (m w) as [[a|e] w1]; simpl in *.
  - destruct (Hk a w1) as (evs2 & Htr2 & H2).
    exists (evs1 ++ evs2). rewrite Htr2, Htr1, app_assoc.
    split; [done|by apply Forall_app].
  - eauto.
Qed.

Lemma emits_fetch (P : Event -> Prop) env path payload :
  (forall init r, P (EvFetch path init r)) -> emits P (_fetch env path payload).
Proof.
  intros HP w. rewrite fetch_run. eexists; split; [reflexivity|].
  by repeat constructor.
Qed.

Lemma emits_create (P : Event -> Prop) env options :
  (forall r, P (EvCreate options r)) ->
  emits P (navigator_credentials_create env options).
Proof.
  intros HP w. eexists; split; [reflexivity|]. by repeat constructor.
Qed.

Lemma emits_set_item (P : Event -> Prop) key value :
  (forall s, P (EvSetItem key s)) -> emits P (localStorage_setItem key value).
Proof.
  intros HP w. unfold localStorage_setItem, bind, lift.
  destruct (to_string value) as [s|e]; simpl.
  - exists [EvSetItem key s]. split; [done|by repeat constructor].
  - exists []. by rewrite app_nil_r.
Qed.

Lemma emits_encodes_only {A : Type} (P : Event -> Prop) (m : M A) :
  (forall data r, P (EvEncode data r)) -> encodes_only m -> emits P m.
Proof.
  intros HP Hm w. destruct (Hm w) as (r & evs & -> & Hevs).
  exists evs. split; [done|].
  eapply Forall_impl; [exact Hevs|]. intros [] He; done.
Qed.

Lemma emits_decodes_only {A : Type} (P : Event -> Prop) (m : M A) :
  (forall text r, P (EvDecode text r)) -> decodes_only m -> emits P m.
Proof.
  intros HP Hm w. destruct (Hm w) as (r & evs & -> & Hevs & _).
  exists evs. split; [done|].
  eapply Forall_impl; [exact Hevs|]. intros [] He; done.
Qed.

Lemma encode_assertion_any env cred :
  encodes_only (encode_assertion env cred).
Proof.
  unfold encode_assertion, get, set.
  repeat (apply encodes_only_bind; intros;
          [first [apply encodes_only_lift | apply encodes_only_encode]|]).
  destruct (truthy _); [|apply (encodes_only_lift (Ok _))].
  repeat (apply encodes_only_bind; intros;
          [first [apply encodes_only_lift | apply encodes_only_encode]|]).
  apply encodes_only_lift.
Qed.

(** What follows the call to the authenticator in a registration:
    encodings, the write of the identifier and the request for
    verification. *)
Lemma register_finish_emits (P : Event -> Prop) env cred :
  (forall e, is_decode e = false -> P e) ->
  emits P
    (let* credential := encode_attestation env cred in
     let* id := get credential "id" in
     let* _ := localStorage_setItem "credId" id in
     _fetch env "/auth/registerResponse" (PValue credential)).
Proof.
  intros HP.
  apply emits_bind;
    [apply emits_encodes_only;
       [intros; by apply HP|apply encode_attestation_any]|intros credential].
  apply emits_bind; [apply emits_lift|intros id].
  apply emits_bind; [apply emits_set_item; intros; by apply HP|intros _].
  apply emits_fetch; intros; by apply HP.
Qed.

(** What follows the decoding of the options. *)
Lemma register_rest_emits (P : Event -> Prop) env options :
  (forall e, is_decode e = false -> P e) ->
  emits P
    (let* cred := navigator_credentials_create env
                    (VObj [("publicKey", options)]) in
     let* credential := encode_attestation env cred in
     let* id := get credential "id" in
     let* _ := localStorage_setItem "credId" id in
     _fetch env "/auth/registerResponse" (PValue credential)).
Proof.
  intros HP.
  apply emits_bind; [apply emits_create; intros; by apply HP|intros cred].
  by apply register_finish_emits.
Qed.

(** The same in an authentication. *)
Lemma authenticate_finish_emits (P : Event -> Prop) env cred :
  (forall e, is_decode e = false -> P e) ->
  emits P
    (let* credential := encode_assertion env cred in
     _fetch env "/auth/signinResponse" (PValue credential)).
Proof.
  intros HP.
  apply emits_bind;
    [apply emits_encodes_only;
       [intros; by apply HP|apply encode_assertion_any]|intros credential].
  apply emits_fetch; intros; by apply HP.
Qed.

(** ** The Transport Adapter *)

(** C4, as the code has it. A call to [_fetch] that gets a response settles
    by the status and by the body.  A body that does not parse as JSON
    rejects with the [SyntaxError] of [res.json()], whatever the status.
    With a body that parses: on status 200 the call resolves with the
    parsed body; on any other status, 4xx or 5xx alike, it rejects with the
    [error] field of the parsed body ([undefined] when the body has no such
    field), unless the body is [null], where reading [error] is a
    [TypeError]. *)
Theorem fetch_resolves_with_body_or_throws_error env path payload w res :
  fetch env (trace w) path (request_init payload) = Ok res ->
  let out := (_fetch env path payload w).1 in
  (json res = None -> out = Throw SyntaxError)
  /\ (forall j, json res = Some j -> status res = 200 -> out = Ok (of_json j))
  /\ (forall j, json res = Some j -> status res <> 200 -> j <> JNull ->
      exists v, get_prop (of_json j) "error" = Ok v
                /\ out = Throw (Thrown v))
  /\ (json res = Some JNull -> status res <> 200 -> out = Throw TypeError).
Proof.
  intros Hres out. unfold out. clear out.
  rewrite fetch_run, Hres. unfold settle. cbn [fst].
  split; [by intros ->|].
  split; [by intros j -> ->|].
  split.
  - intros j -> Hs Hj. apply Z.eqb_neq in Hs as ->.
    destruct j; try done; simpl; eauto.
  - intros -> Hs. by apply Z.eqb_neq in Hs as ->.
Qed.

Lemma fetch_resolves_with_body_or_throws_error_witness :
  let run server :=
    (_fetch (Demo.env server (Ok Demo.assertion)) "/auth/signinRequest"
       (PValue (VObj [])) (start ∅)).1 in
  run Demo.signin_server = Ok (of_json Demo.signin_options)
  /\ (exists v,
        get_prop (of_json (JObj [("error", JStr "bad challenge")])) "error"
        = Ok v
        /\ run (fun _ => Demo.failed 503 "bad challenge") = Throw (Thrown v))
  /\ run (fun _ => Ok {| status := 404; json := None |}) = Throw SyntaxError
  /\ run (fun _ => Ok {| status := 200; json := None |}) = Throw SyntaxError
  /\ run (fun _ => Ok {| status := 500; json := Some JNull |})
     = Throw TypeError.
Proof.
  intros run. unfold run. clear run.
  split; [|split; [|split; [|split]]].
  - apply (fetch_resolves_with_body_or_throws_error
             (Demo.env Demo.signin_server (Ok Demo.assertion))
             "/auth/signinRequest" (PValue (VObj [])) (start ∅)
             {| status := 200; json := Some Demo.signin_options |});
      reflexivity.
  - apply (fetch_resolves_with_body_or_throws_error
             (Demo.env (fun _ => Demo.failed 503 "bad challenge")
                (Ok Demo.assertion))
             "/auth/signinRequest" (PValue (VObj [])) (start ∅)
             {| status := 503;
                json := Some (JObj [("error", JStr "bad challenge")]) |});
      [reflexivity|reflexivity|simpl; lia|discriminate].
  - apply (fetch_resolves_with_body_or_throws_error
             (Demo.env (fun _ => Ok {| status := 404; json := None |})
                (Ok Demo.assertion))
             "/auth/signinRequest" (PValue (VObj [])) (start ∅)
             {| status := 404; json := None |});
      reflexivity.
  - apply (fetch_resolves_with_body_or_throws_error
             (Demo.env (fun _ => Ok {| status := 200; json := None |})
                (Ok Demo.assertion))
             "/auth/signinRequest" (PValue (VObj [])) (start ∅)
             {| status := 200; json := None |});
      reflexivity.
  - apply (fetch_resolves_with_body_or_throws_error
             (Demo.env (fun _ => Ok {| status := 500; json := Some JNull |})
                (Ok Demo.assertion))
             "/auth/signinRequest" (PValue (VObj [])) (start ∅)
             {| status := 500; json := Some JNull |});
      [reflexivity|reflexivity|simpl; lia].
Defined.

(** C4, as stated, fails: a 404 whose body is not JSON (the error page of
    a proxy, say) does not reject with an [error] field, for there is no
    parsed body to read it from; the call rejects with the [SyntaxError]
    of [res.json()]. *)
Lemma fetch_does_not_settle_by_status_alone :
  ~ settles_by_status_alone
      (Demo.env (fun _ => Ok {| status := 404; json := None |})
         (Ok Demo.assertion))
      "/auth/removeKey" (PValue VUndef) (start ∅).
Proof.
  intros Hspec.
  destruct (Hspec {| status := 404; json := None |} eq_refl) as (j & Hj & _).
  discriminate Hj.
Qed.

(** ** Unregistration *)

(** C5, as the code has it. The removal request of [unregisterCredential]
    goes through [_fetch] like every other request: it is a POST.  As in a
    GET the identifier travels in the query string, escaped by
    [encodeURIComponent], and the request carries no payload: its body is
    the empty text and no content type is set. *)
Theorem unregister_request_is_post_with_id_in_query env credId st :
  exists init res,
    trace (unregisterCredential env credId (start st)).2 =
      [EvRemoveItem "credId";
       EvFetch ("/auth/removeKey?credId=" ++ encodeURIComponent credId)%string
         init res]
    /\ carries_no_payload init = true
    /\ init = {| method := "POST";
                 credentials := "same-origin";
                 headers := [("X-Requested-With", "XMLHttpRequest")];
                 body := BodyValue (VStr "") |}.
Proof.
  unfold unregisterCredential, bind, localStorage_removeItem.
  rewrite fetch_run. simpl. by eexists; eexists.
Qed.

(** C5, as stated, fails: the removal request for the identifier ["abc"] is
    not in the style of a GET; its method is POST and it has a body, the
    empty text. *)
Lemma unregister_request_is_not_get_style :
  ~ removal_is_get_style
      (Demo.env (fun _ => Demo.ok (JObj [])) (Ok Demo.assertion)) "abc" ∅.
Proof.
  intros (init & res & Hin & Hstyle).
  vm_compute in Hin. destruct Hin as [Hin|[Hin|[]]]; [discriminate|].
  injection Hin as <- _. discriminate.
Qed.

(** C3. Whatever identifier [unregisterCredential] is given, and whatever
    [localStorage] holds, be it that identifier, another one or nothing:
    the slot [credId] is empty afterwards; exactly one request is made, the
    removal request; and the promise settles as that request does, so that
    it resolves whenever the server answers 200 with a JSON body: removing
    from an empty slot raises nothing, and leaves the storage as it was. *)
Theorem unregister_clears_slot_and_requests_once env credId st :
  let run := unregisterCredential env credId (start st) in
  exists init res,
    trace run.2 =
      [EvRemoveItem "credId";
       EvFetch ("/auth/removeKey?credId=" ++ encodeURIComponent credId)%string
         init res]
    /\ filter (fun e => is_fetch e = true) (trace run.2)
       = [EvFetch
            ("/auth/removeKey?credId=" ++ encodeURIComponent credId)%string
            init res]
    /\ storage run.2 = delete "credId" st
    /\ storage run.2 !! "credId" = None
    /\ run.1 = settle res
    /\ (forall j, res = Ok {| status := 200; json := Some j |} ->
        run.1 = Ok (of_json j))
    /\ (st !! "credId" = None -> storage run.2 = st).
Proof.
  intros run. unfold run, unregisterCredential, bind, localStorage_removeItem.
  rewrite fetch_run. simpl.
  eexists; eexists. split; [reflexivity|]. split; [reflexivity|].
  split; [reflexivity|]. split; [apply lookup_delete_eq|].
  split; [reflexivity|]. split; [by intros j ->|apply delete_id].
Qed.

Lemma unregister_clears_slot_and_requests_once_witness :
  let env := Demo.env (fun _ => Demo.ok (JObj [])) (Ok Demo.assertion) in
  let run := unregisterCredential env "abc" (start ∅) in
  run.1 = Ok (VObj [])
  /\ storage run.2 = ∅
  /\ filter (fun e => is_fetch e = true) (trace run.2)
     = [EvFetch "/auth/removeKey?credId=abc"
          {| method := "POST";
             credentials := "same-origin";
             headers := [("X-Requested-With", "XMLHttpRequest")];
             body := BodyValue (VStr "") |}
          (Demo.ok (JObj []))].
Proof.
  intros env run.
  destruct (unregister_clears_slot_and_requests_once env "abc" ∅)
    as (init & res & Htrace & Hfetch & _ & _ & _ & Hout & Hsame).
  fold run in Htrace, Hfetch, Hout, Hsame.
  assert (Hres : init = request_init (PValue VUndef)
                 /\ res = Demo.ok (JObj [])).
  { vm_compute in Htrace. by injection Htrace as <- <-. }
  destruct Hres as [-> ->]. split; [|split].
  - by apply (Hout (JObj [])).
  - by apply Hsame.
  - exact Hfetch.
Defined.

(** ** Registration *)

Lemma register_after_options_emits (P : Event -> Prop) env options :
  (forall e, P e) ->
  emits P
    (let* options := decode_creation_options env options in
     let* cred := navigator_credentials_create env
                    (VObj [("publicKey", options)]) in
     let* credential := encode_attestation env cred in
     let* id := get credential "id" in
     let* _ := localStorage_setItem "credId" id in
     _fetch env "/auth/registerResponse" (PValue credential)).
Proof.
  intros HP. apply emits_bind.
  - apply emits_decodes_only; [done|apply decode_creation_options_any].
  - intros. by apply register_rest_emits.
Qed.

(** C6. The first call of every registration is the request for options:
    a POST to [/auth/registerRequest] whose JSON body asks for attestation
    [none], authenticator attachment [platform], user verification
    [required], and sets the resident-key member to [false].  The source
    spells that member [requireResistantKey]; read under the name of the
    standard the parameters ask for no resident key either. *)
Theorem register_starts_with_options_request env st :
  exists params res rest,
    trace (registerCredential env (start st)).2 =
      EvFetch "/auth/registerRequest"
        {| method := "POST";
           credentials := "same-origin";
           headers := [("X-Requested-With", "XMLHttpRequest");
                       ("Content-Type", "application/json")];
           body := BodyJSON params |}
        res :: rest
    /\ params =
       JObj [("attestation", JStr "none");
             ("authenticatorSelection",
              JObj [("authenticatorAttachment", JStr "platform");
                    ("userVerification", JStr "required");
                    ("requireResistantKey", JBool false)])]
    /\ requires_resident_key params = false.
Proof.
  unfold registerCredential. unfold bind at 1. rewrite fetch_run.
  destruct (settle _) as [options|e];
    [|by eexists; eexists; exists []].
  destruct (register_after_options_emits (fun _ => True) env options
              ltac:(done) (emit (EvFetch "/auth/registerRequest"
                 (request_init (PValue creation_opts))
                 (fetch env (trace (start st)) "/auth/registerRequest"
                    (request_init (PValue creation_opts)))) (start st)))
    as (evs & -> & _).
  simpl. by eexists; eexists; eexists.
Qed.

Lemma not_in_kind (P : Event -> bool) e l :
  Forall (fun x => P x = true) l -> P e = false -> ~ In e l.
Proof.
  intros Hl He Hin. rewrite Forall_forall in Hl.
  apply list_elem_of_In in Hin. specialize (Hl _ Hin). congruence.
Qed.

Lemma not_in_other_kind (P : Event -> bool) e l :
  Forall (fun x => P x = false) l -> P e = true -> ~ In e l.
Proof.
  intros Hl He Hin. rewrite Forall_forall in Hl.
  apply list_elem_of_In in Hin. specialize (Hl _ Hin). congruence.
Qed.

Lemma encode_attestation_none env cred e w :
  get_prop cred "id" = Throw e ->
  encode_attestation env cred w = (Throw e, w).
Proof.
  intros Hid. unfold encode_attestation, bind, get, lift. by rewrite Hid.
Qed.

(** A registration in which the authenticator returned a credential with an
    identifier that has a text form: up to the last request. *)
Lemma register_created env st options cred id s :
  In (EvCreate options (Ok cred))
     (trace (registerCredential env (start st)).2) ->
  get_prop cred "id" = Ok id ->
  to_string id = Ok s ->
  exists init0 res0 decs credential evs,
    let pre := EvFetch "/auth/registerRequest" init0 res0
                 :: decs ++ [EvCreate options (Ok cred)] in
    Forall (fun e => is_decode e = true) decs
    /\ encode_attestation env cred {| storage := st; trace := pre |}
       = (Ok credential, emit_all evs {| storage := st; trace := pre |})
    /\ registerCredential env (start st)
       = _fetch env "/auth/registerResponse" (PValue credential)
           {| storage := <["credId" := s]> st;
              trace := pre ++ evs ++ [EvSetItem "credId" s] |}.
Proof.
  intros Hin Hid Hs.
  destruct (registerCredential env (start st)) as [out w'] eqn:Hrun.
  simpl in Hin. revert Hrun Hin.
  unfold registerCredential. unfold bind at 1. rewrite fetch_run.
  set (e0 := EvFetch _ _ _).
  destruct (settle _) as [options0|e]; simpl.
  2:{ intros [= <- <-] [Hin|[]]. discriminate. }
  unfold bind at 1.
  destruct (decode_creation_options_any env options0 (emit e0 (start st)))
    as (r1 & decs & -> & Hdecs & _).
  destruct r1 as [options'|e]; simpl.
  2:{ intros [= <- <-] [Hin|Hin]; [discriminate|].
      by eapply (not_in_kind is_decode) in Hin. }
  unfold bind at 1, navigator_credentials_create at 1.
  set (w1 := emit_all decs (emit e0 (start st))).
  set (arg := VObj [("publicKey", options')]).
  assert (Hpre : forall r,
            In (EvCreate options (Ok cred))
               (trace (emit (EvCreate arg r) w1)) ->
            r = Ok cred /\ arg = options).
  { intros r. simpl. rewrite !in_app_iff. simpl.
    intros [Hin|[Hin|[Hin|[]]]]; [discriminate| |by injection Hin as -> ->].
    by eapply (not_in_kind is_decode) in Hin. }
  destruct (credentials_create env (trace w1) arg) as [cred0|e] eqn:Hcreate.
  2:{ intros [= <- <-] Hin. by apply Hpre in Hin as [? _]. }
  set (w2 := emit (EvCreate arg (Ok cred0)) w1).
  assert (Hsame : forall evs,
            In (EvCreate options (Ok cred)) (trace (emit_all evs w2)) ->
            Forall (fun e => is_set_item e || is_encode e || is_fetch e = true)
                   evs ->
            cred0 = cred /\ arg = options).
  { intros evs Hin Hevs.
    change (trace (emit_all evs w2)) with (trace w2 ++ evs) in Hin.
    rewrite in_app_iff in Hin. destruct Hin as [Hin|Hin].
    - apply Hpre in Hin as [[= ->] ->]. done.
    - by eapply (not_in_kind _ _ _ Hevs) in Hin. }
  destruct (get_prop cred0 "id") as [id0|e] eqn:Hid0.
  2:{ unfold bind at 1. rewrite (encode_attestation_none _ _ _ _ Hid0).
      intros [= <- <-] Hin. apply Hpre in Hin as [[= ->] _]. congruence. }
  destruct (encode_attestation_some env cred0 id0 w2 Hid0)
    as (credential & evs & Henc & Hevs & Hcid).
  assert (Hevs' : Forall (fun e => is_set_item e || is_encode e || is_fetch e
                                   = true) evs).
  { eapply Forall_impl; [exact Hevs|]. intros x ->. by rewrite orb_true_r. }
  unfold bind at 1. rewrite Henc.
  unfold bind at 1. unfold get at 1, lift at 1. rewrite Hcid.
  unfold bind at 1. unfold localStorage_setItem, bind, lift.
  destruct (to_string id0) as [s0|e] eqn:Hs0.
  2:{ intros [= <- <-] Hin. apply Hsame in Hin as [-> _]; [congruence|done]. }
  intros Hrun Hin. rewrite <- Hrun. rewrite fetch_run in Hrun.
  injection Hrun as _ <-.
  assert (cred0 = cred /\ arg = options) as [-> Harg].
  { eapply (Hsame (evs ++ [EvSetItem "credId" s0; _])).
    - simpl in *. rewrite <- !app_assoc in *. exact Hin.
    - apply Forall_app. split; [done|by repeat constructor]. }
  assert (id0 = id) as -> by congruence.
  assert (s0 = s) as -> by congruence.
  eexists; eexists; exists decs, credential, evs.
  split; [exact Hdecs|]. rewrite <- Harg. split.
  - exact Henc.
  - simpl. by rewrite <- !app_assoc.
Qed.

Lemma to_json_object props :
  to_json (VObj props) = Some (JObj (json_members props)).
Proof. reflexivity. Qed.

(** The request made for a payload that is an object. *)
Lemma request_init_object props :
  request_init (PValue (VObj props)) =
    {| method := "POST";
       credentials := "same-origin";
       headers := [("X-Requested-With", "XMLHttpRequest");
                   ("Content-Type", "application/json")];
       body := BodyJSON (JObj (json_members props)) |}.
Proof. unfold request_init. cbn [truthy]. by rewrite to_json_object. Qed.

Lemma app_two_last {A : Type} (l1 l2 : list A) x y :
  (l1 ++ l2 ++ [x]) ++ [y] = (l1 ++ l2) ++ [x; y].
Proof. by rewrite <- !app_assoc. Qed.

Lemma filter_kind_nil (P : Event -> bool) l :
  Forall (fun e => P e = false) l -> filter (fun e => P e = true) l = [].
Proof.
  induction 1 as [|e l He _ IH]; [done|].
  rewrite filter_cons_False by congruence. exact IH.
Qed.

(** C2. A registration in which the authenticator returned a credential
    (whose identifier has the text form [s]) writes the slot [credId]
    exactly once, with [s]; nothing was asked of [/auth/registerResponse]
    before this write, and the very next call is the request to that
    endpoint; however that request settles, and so also when it is
    rejected, the slot holds [s] at the end. *)
Theorem register_persists_once_before_verification
    env st options cred id s out w' :
  registerCredential env (start st) = (out, w') ->
  In (EvCreate options (Ok cred)) (trace w') ->
  get_prop cred "id" = Ok id ->
  to_string id = Ok s ->
  exists pre init res,
    trace w' = pre ++ [EvSetItem "credId" s;
                       EvFetch "/auth/registerResponse" init res]
    /\ Forall (fun e => is_set_item e = false
                        /\ is_request_to "/auth/registerResponse" e = false)
         pre
    /\ filter (fun e => is_set_item e = true) (trace w')
       = [EvSetItem "credId" s]
    /\ out = settle res
    /\ storage w' !! "credId" = Some s.
Proof.
  intros Hrun Hin Hid Hs.
  assert (Hin' : In (EvCreate options (Ok cred))
                    (trace (registerCredential env (start st)).2))
    by by rewrite Hrun.
  destruct (register_created env st options cred id s Hin' Hid Hs)
    as (init0 & res0 & decs & credential & evs & Hdecs & Henc & Hrest).
  cbv zeta in Henc, Hrest.
  set (pre := EvFetch "/auth/registerRequest" init0 res0
                :: decs ++ [EvCreate options (Ok cred)]) in *.
  rewrite Hrun, fetch_run in Hrest. injection Hrest as -> ->.
  destruct (encode_attestation_some env cred id
              {| storage := st; trace := pre |} Hid)
    as (credential' & evs' & Henc' & Hevs & _).
  rewrite Henc in Henc'. injection Henc' as <- Hevs'.
  apply app_inv_head in Hevs' as <-.
  assert (Hpre : Forall (fun e => is_set_item e = false
                                  /\ is_request_to "/auth/registerResponse" e
                                     = false) (pre ++ evs)).
  { unfold pre. rewrite app_comm_cons, <- app_assoc.
    constructor; [done|]. repeat (apply Forall_app; split).
    - eapply Forall_impl; [exact Hdecs|]. by intros [].
    - by repeat constructor.
    - eapply Forall_impl; [exact Hevs|]. by intros []. }
  exists (pre ++ evs), (request_init (PValue credential)),
    (fetch env (pre ++ evs ++ [EvSetItem "credId" s])
       "/auth/registerResponse" (request_init (PValue credential))).
  cbn [trace storage emit fst snd].
  split; [apply (app_two_last pre evs)|]. split; [done|].
  split; [|split; [reflexivity|apply lookup_insert_eq]].
  change (EvFetch "/auth/registerRequest" init0 res0
            :: (decs ++ [EvCreate options (Ok cred)])
               ++ evs ++ [EvSetItem "credId" s])
    with (pre ++ evs ++ [EvSetItem "credId" s]).
  rewrite (app_two_last pre evs), filter_app.
  rewrite (filter_kind_nil is_set_item (pre ++ evs)); [done|].
  eapply Forall_impl; [exact Hpre|]. by intros e [? _].
Qed.

Lemma register_persists_once_before_verification_witness :
  let run := registerCredential (Demo.env Demo.refusing_server
                                   (Ok Demo.attestation)) (start ∅) in
  run.1 = Throw (Thrown (VStr "bad challenge"))
  /\ exists pre init res,
      trace run.2 = pre ++ [EvSetItem "credId" "abc";
                            EvFetch "/auth/registerResponse" init res]
      /\ Forall (fun e => is_set_item e = false
                          /\ is_request_to "/auth/registerResponse" e = false)
           pre
      /\ filter (fun e => is_set_item e = true) (trace run.2)
         = [EvSetItem "credId" "abc"]
      /\ run.1 = settle res
      /\ storage run.2 !! "credId" = Some "abc".
Proof.
  intros run. split; [reflexivity|].
  apply (register_persists_once_before_verification
           (Demo.env Demo.refusing_server (Ok Demo.attestation)) ∅
           Demo.creation_options Demo.attestation (VStr "abc") "abc").
  - reflexivity.
  - vm_compute. auto 10.
  - reflexivity.
  - reflexivity.
Defined.

(** C8. When the credential returned by the authenticator has no response
    bundle ([cred.response] is [undefined], [null], or otherwise falsy), the
    registration goes on: the identifier is written to the slot [credId],
    and the request to [/auth/registerResponse] carries a JSON object made
    of [id], [rawId] and [type] with no [response] member; the promise
    settles as that request does. *)
Theorem register_without_response_bundle env st options cred id s out w' :
  registerCredential env (start st) = (out, w') ->
  In (EvCreate options (Ok cred)) (trace w') ->
  get_prop cred "id" = Ok id ->
  to_string id = Ok s ->
  truthy (field cred "response") = false ->
  exists pre members res,
    trace w' =
      pre ++ [EvSetItem "credId" s;
              EvFetch "/auth/registerResponse"
                {| method := "POST";
                   credentials := "same-origin";
                   headers := [("X-Requested-With", "XMLHttpRequest");
                               ("Content-Type", "application/json")];
                   body := BodyJSON (JObj members) |}
                res]
    /\ to_json (VObj [("id", id);
                      ("rawId",
                       VStr (base64url_encode (base64url env)
                               (field cred "rawId")));
                      ("type", field cred "type")])
       = Some (JObj members)
    /\ own "response" members = None
    /\ storage w' !! "credId" = Some s
    /\ out = settle res.
Proof.
  intros Hrun Hin Hid Hs Hresp.
  assert (Hin' : In (EvCreate options (Ok cred))
                    (trace (registerCredential env (start st)).2))
    by by rewrite Hrun.
  destruct (register_created env st options cred id s Hin' Hid Hs)
    as (init0 & res0 & decs & credential & evs & _ & Henc & Hrest).
  cbv zeta in Henc, Hrest.
  set (pre := EvFetch "/auth/registerRequest" init0 res0
                :: decs ++ [EvCreate options (Ok cred)]) in *.
  rewrite Hrun, fetch_run in Hrest. injection Hrest as -> ->.
  rewrite (encode_attestation_absent _ _ _ _ Hid Hresp) in Henc.
  injection Henc as <- Hevs. apply app_inv_head in Hevs as <-.
  rewrite request_init_object, to_json_object.
  exists (pre ++ [EvEncode (field cred "rawId")
                    (base64url_encode (base64url env) (field cred "rawId"))]).
  eexists; eexists. cbn [trace storage emit fst snd].
  split; [apply (app_two_last pre [_])|]. split; [reflexivity|].
  split; [|split; [apply lookup_insert_eq|reflexivity]].
  cbn [json_members].
  by destruct (to_json id), (to_json (field cred "type")).
Qed.

Lemma register_without_response_bundle_witness :
  let run := registerCredential (Demo.env Demo.registration_server
                                   (Ok Demo.bare_attestation)) (start ∅) in
  run.1 = Ok (VObj [("ok", VBool true)])
  /\ exists pre members res,
      trace run.2 =
        pre ++ [EvSetItem "credId" "abc";
                EvFetch "/auth/registerResponse"
                  {| method := "POST";
                     credentials := "same-origin";
                     headers := [("X-Requested-With", "XMLHttpRequest");
                                 ("Content-Type", "application/json")];
                     body := BodyJSON (JObj members) |}
                  res]
      /\ to_json (VObj [("id", VStr "abc"); ("rawId", VStr "YWJj");
                        ("type", VStr "public-key")])
         = Some (JObj members)
      /\ own "response" members = None
      /\ storage run.2 !! "credId" = Some "abc"
      /\ run.1 = settle res.
Proof.
  intros run. split; [reflexivity|].
  apply (register_without_response_bundle
           (Demo.env Demo.registration_server (Ok Demo.bare_attestation)) ∅
           Demo.creation_options Demo.bare_attestation (VStr "abc") "abc").
  - reflexivity.
  - vm_compute. auto 10.
  - reflexivity.
  - reflexivity.
  - reflexivity.
Defined.

(** The binary fields of the options handed to [create]. *)
Lemma decoded_creation_options_fields env options :
  creation_options_decodable env options = true ->
  let options' := decoded_creation_options env options in
  decodes_to env (field (field options "user") "id")
    (field (field options' "user") "id")
  /\ decodes_to env (field options "challenge") (field options' "challenge")
  /\ Forall2 (id_decoded env)
       (entries (field options "excludeCredentials"))
       (entries (field options' "excludeCredentials")).
Proof.
  unfold creation_options_decodable. intros Hok.
  apply andb_prop in Hok as [Hok Hex]. apply andb_prop in Hok as [Huser Hch].
  assert (Hobj : match options with VObj _ | VArr _ _ => true | _ => false end
                 = true) by by destruct options.
  cbv zeta. unfold decoded_creation_options.
  set (options1 := write_back options "user" _).
  assert (Hobj1 : match options1 with VObj _ | VArr _ _ => true | _ => false end
                  = true) by by destruct options.
  assert (Hch1 : decodable env "challenge" options1 = true).
  { unfold options1. by rewrite decodable_write_back. }
  set (options2 := decoded env "challenge" options1).
  assert (Hobj2 : match options2 with VObj _ | VArr _ _ => true | _ => false end
                  = true).
  { unfold options2, decoded.
    destruct (base64url_decode (base64url env) _); [|done].
    by destruct options1. }
  assert (Huser2 : field options2 "user"
                   = decoded env "id" (field options "user")).
  { unfold options2. rewrite decoded_field_ne by done.
    unfold options1. by rewrite field_write_back_eq. }
  assert (Hch2 : decodes_to env (field options "challenge")
                   (field options2 "challenge")).
  { pose proof (decoded_field _ _ _ Hch1 eq_refl) as Hdec.
    unfold options1 in Hdec at 1.
    by rewrite field_write_back_ne in Hdec. }
  assert (Hex2 : field options2 "excludeCredentials"
                 = field options "excludeCredentials").
  { unfold options2. rewrite decoded_field_ne by done.
    unfold options1. by rewrite field_write_back_ne. }
  rewrite Hex2.
  destruct (truthy (field options "excludeCredentials")) eqn:Htruthy;
    simpl in Hex.
  - rewrite !field_write_back_ne by done.
    rewrite field_write_back_eq by done.
    rewrite Huser2.
    split; [by apply decoded_field|]. split; [done|].
    by apply decoded_entries_ids.
  - rewrite Huser2, Hex2.
    split; [by apply decoded_field|]. split; [done|].
    destruct (field options "excludeCredentials"); try constructor.
    done.
Qed.

(** C7. In a registration, once the options are fetched: when their binary
    fields all decode, the calls that follow are the decoding of [user.id],
    of [challenge] and of the [id] of every excluded credential, and then
    the call to [create], which receives the options with each of these
    fields replaced by its binary; and whenever a decoding fails, the
    registration is rejected with [MalformedEncodingError] without any call
    to the authenticator. *)
Theorem register_decodes_before_create env st out w' :
  registerCredential env (start st) = (out, w') ->
  (forall options w1,
      _fetch env "/auth/registerRequest" (PValue creation_opts) (start st)
        = (Ok options, w1) ->
      creation_options_decodable env options = true ->
      let options' := decoded_creation_options env options in
      (exists res post,
          trace w' =
            trace w1 ++ creation_decodings env options
              ++ EvCreate (VObj [("publicKey", options')]) res :: post)
      /\ Forall (fun e => is_platform_call e = false)
           (trace w1 ++ creation_decodings env options)
      /\ decodes_to env (field (field options "user") "id")
           (field (field options' "user") "id")
      /\ decodes_to env (field options "challenge")
           (field options' "challenge")
      /\ Forall2 (id_decoded env)
           (entries (field options "excludeCredentials"))
           (entries (field options' "excludeCredentials")))
  /\ ((exists text, In (EvDecode text None) (trace w')) ->
      out = Throw MalformedEncodingError
      /\ Forall (fun e => is_platform_call e = false) (trace w')).
Proof.
  intros Hrun. split.
  - intros options w1 Hfetch Hok options'.
    split; [|split; [|by apply decoded_creation_options_fields]].
    + revert Hrun. unfold registerCredential.
      unfold bind at 1. rewrite Hfetch.
      unfold bind at 1. rewrite (decode_creation_options_ok _ _ _ Hok).
      set (w2 := emit_all _ w1).
      unfold bind at 1, navigator_credentials_create at 1.
      destruct (credentials_create env (trace w2) _) as [cred|e].
      * set (w3 := emit _ w2).
        destruct (register_finish_emits (fun _ => True) env cred
                    ltac:(done) w3) as (evs & Htr & _).
        intros Hrun. rewrite Hrun in Htr. simpl in Htr.
        exists (Ok cred), evs. rewrite Htr. by rewrite <- !app_assoc.
      * intros [= <- <-]. exists (Throw e), []. simpl.
        by rewrite <- !app_assoc.
    + rewrite fetch_run in Hfetch. injection Hfetch as _ <-. simpl.
      constructor; [done|]. constructor; [done|]. constructor; [done|].
      apply Forall_forall. intros e He.
      apply list_elem_of_In, in_map_iff in He as (c & <- & _). done.
  - intros [text Hin]. revert Hrun Hin.
    unfold registerCredential. unfold bind at 1. rewrite fetch_run.
    set (e0 := EvFetch _ _ _).
    destruct (settle _) as [options0|e]; simpl.
    2:{ intros [= <- <-] [Hin|[]]. discriminate. }
    unfold bind at 1.
    destruct (decode_creation_options_any env options0 (emit e0 (start st)))
      as (r1 & decs & -> & Hdecs & Hres).
    assert (Hdecs' : Forall (fun e => is_platform_call e = false) decs).
    { eapply Forall_impl; [exact Hdecs|]. by intros []. }
    destruct r1 as [options'|e]; simpl.
    2:{ intros [= <- <-] [Hin|Hin]; [discriminate|].
        destruct Hres as [[= ->]|Hres].
        - split; [done|]. by constructor.
        - by eapply (not_in_other_kind is_failed_decode) in Hin. }
    destruct Hres as [|Hres]; [done|].
    set (w1 := emit_all decs (emit e0 (start st))).
    destruct (register_rest_emits (fun e => is_failed_decode e = false)
                env options' ltac:(by intros []) w1) as (evs & Htr & Hevs).
    intros Hrun. rewrite Hrun in Htr. simpl in Htr. rewrite Htr.
    intros [Hin|Hin]; [discriminate|].
    apply in_app_iff in Hin as [Hin|Hin];
      by eapply (not_in_other_kind is_failed_decode) in Hin.
Qed.

Lemma register_decodes_before_create_witness :
  let env1 := Demo.env Demo.returning_server (Ok Demo.attestation) in
  let env2 := Demo.env Demo.malformed_server (Ok Demo.attestation) in
  let fetched :=
    _fetch env1 "/auth/registerRequest" (PValue creation_opts) (start ∅) in
  let options := of_json Demo.returning_options in
  let run1 := registerCredential env1 (start ∅) in
  let run2 := registerCredential env2 (start ∅) in
  (exists res post,
      trace run1.2 =
        trace fetched.2 ++ creation_decodings env1 options
          ++ EvCreate (VObj [("publicKey",
                              decoded_creation_options env1 options)]) res
             :: post)
  /\ run2.1 = Throw MalformedEncodingError
  /\ Forall (fun e => is_platform_call e = false) (trace run2.2).
Proof.
  intros env1 env2 fetched options run1 run2. split.
  - destruct (register_decodes_before_create env1 ∅ run1.1 run1.2
                (surjective_pairing run1)) as [Hdecoded _].
    destruct (Hdecoded options fetched.2) as [Htrace _];
      [reflexivity|reflexivity|exact Htrace].
  - apply (register_decodes_before_create env2 ∅ run2.1 run2.2
             (surjective_pairing run2)).
    exists (VStr "not base64!!"). vm_compute. auto.
Defined.

(** ** Authentication *)

Lemma request_options_run env st :
  exists url,
    request_options env (start st) =
      _fetch env url (PValue (VObj []))
        (emit (EvGetItem "credId" (st !! "credId")) (start st)).
Proof.
  unfold request_options, bind, localStorage_getItem, signin_url.
  simpl. destruct (st !! "credId") as [s|]; simpl; [|by eexists].
  destruct (negb (s =? "")%string); unfold bind, lift, ret; simpl; by eexists.
Qed.

Lemma request_options_trace env st r w1 :
  request_options env (start st) = (r, w1) ->
  storage w1 = st
  /\ exists url init res,
      trace w1 = [EvGetItem "credId" (st !! "credId"); EvFetch url init res].
Proof.
  destruct (request_options_run env st) as (url & ->).
  rewrite fetch_run. intros [= <- <-]. split; [done|]. simpl. eauto.
Qed.

(** With an empty allow-list nothing follows the request for options but
    the message on the console. *)
Lemma authenticate_no_credential env st options w1 props :
  request_options env (start st) = (Ok options, w1) ->
  get_prop options "allowCredentials" = Ok (VArr [] props) ->
  authenticate env (start st)
  = (Ok VNull, emit (EvInfo "No registered credentials found.") w1).
Proof.
  intros Hreq Hallow. unfold authenticate.
  unfold bind at 1. rewrite Hreq.
  unfold bind at 1. unfold get at 1, lift. rewrite Hallow.
  reflexivity.
Qed.

(** C1. An authentication whose options, as returned by the server, carry
    an empty [allowCredentials] list resolves with [null]; it makes no call
    to the authenticator, neither [get] nor [create]: after the request for
    options it only writes a message to the console. *)
Theorem authenticate_empty_allow_list_resolves_null env st options w1 props :
  request_options env (start st) = (Ok options, w1) ->
  get_prop options "allowCredentials" = Ok (VArr [] props) ->
  let run := authenticate env (start st) in
  run.1 = Ok VNull
  /\ trace run.2 = trace w1 ++ [EvInfo "No registered credentials found."]
  /\ Forall (fun e => is_platform_call e = false) (trace run.2)
  /\ (forall o r, ~ In (EvGet o r) (trace run.2)).
Proof.
  intros Hreq Hallow run. unfold run.
  rewrite (authenticate_no_credential _ _ _ _ _ Hreq Hallow).
  destruct (request_options_trace _ _ _ _ Hreq) as (_ & url & init & res & Htr).
  simpl. rewrite Htr. split; [done|]. split; [done|].
  split; [by repeat constructor|].
  intros o r [Hin|[Hin|[Hin|[]]]]; discriminate.
Qed.

Lemma authenticate_empty_allow_list_resolves_null_witness :
  let env := Demo.env Demo.no_credential_server (Ok Demo.assertion) in
  let run := authenticate env (start Demo.stored) in
  run.1 = Ok VNull
  /\ trace run.2
     = trace (request_options env (start Demo.stored)).2
         ++ [EvInfo "No registered credentials found."]
  /\ Forall (fun e => is_platform_call e = false) (trace run.2)
  /\ (forall o r, ~ In (EvGet o r) (trace run.2)).
Proof.
  intros env run.
  apply (authenticate_empty_allow_list_resolves_null env Demo.stored
           (of_json Demo.no_credential_options)
           (request_options env (start Demo.stored)).2 []).
  - reflexivity.
  - reflexivity.
Defined.

(** C9. With an empty [allowCredentials] list nothing is decoded, the
    challenge included: the authentication makes no call to [decode] and
    resolves with [null], hence is not rejected with
    [MalformedEncodingError], whether the challenge of the options is
    well-formed or not. *)
Theorem authenticate_empty_allow_list_skips_decoding env st options w1 props :
  request_options env (start st) = (Ok options, w1) ->
  get_prop options "allowCredentials" = Ok (VArr [] props) ->
  let run := authenticate env (start st) in
  Forall (fun e => is_decode e = false) (trace run.2)
  /\ (forall text r, ~ In (EvDecode text r) (trace run.2))
  /\ run.1 = Ok VNull
  /\ run.1 <> Throw MalformedEncodingError.
Proof.
  intros Hreq Hallow run. unfold run.
  rewrite (authenticate_no_credential _ _ _ _ _ Hreq Hallow).
  destruct (request_options_trace _ _ _ _ Hreq) as (_ & url & init & res & Htr).
  simpl. rewrite Htr. split; [by repeat constructor|].
  split; [|done].
  intros text r [Hin|[Hin|[Hin|[]]]]; discriminate.
Qed.

Lemma authenticate_empty_allow_list_skips_decoding_witness :
  let env := Demo.env Demo.no_credential_server (Ok Demo.assertion) in
  let run := authenticate env (start Demo.stored) in
  base64url_decode (base64url env)
    (field (of_json Demo.no_credential_options) "challenge")
  = None
  /\ Forall (fun e => is_decode e = false) (trace run.2)
  /\ (forall text r, ~ In (EvDecode text r) (trace run.2))
  /\ run.1 = Ok VNull
  /\ run.1 <> Throw MalformedEncodingError.
Proof.
  intros env run. split; [reflexivity|].
  apply (authenticate_empty_allow_list_skips_decoding env Demo.stored
           (of_json Demo.no_credential_options)
           (request_options env (start Demo.stored)).2 []).
  - reflexivity.
  - reflexivity.
Defined.

(** C10. An authentication whose options carry a non-empty
    [allowCredentials] list, of whatever length, with a challenge and
    identifiers that decode: after the challenge, the [id] of every entry
    is decoded, one call per entry and in order, and [get] is then called
    with the options in which the list has the same entries, each with the
    binary in place of its [id]. *)
Theorem authenticate_decodes_every_allowed_credential
    env st options w1 items props out w' :
  authenticate env (start st) = (out, w') ->
  request_options env (start st) = (Ok options, w1) ->
  get_prop options "allowCredentials" = Ok (VArr items props) ->
  items <> [] ->
  decodable env "challenge" options = true ->
  forallb (decodable env "id") items = true ->
  let options' := decoded_request_options env options in
  (exists res post,
      trace w' =
        trace w1 ++ decoding env "challenge" options
          :: List.map (decoding env "id") items
          ++ EvGet (VObj [("publicKey", options')]) res :: post)
  /\ decodes_to env (field options "challenge") (field options' "challenge")
  /\ field options' "allowCredentials"
     = VArr (List.map (decoded env "id") items) props
  /\ Forall2 (id_decoded env) items (List.map (decoded env "id") items)
  /\ Forall (fun e => is_platform_call e = false)
       (trace w1 ++ decoding env "challenge" options
          :: List.map (decoding env "id") items).
Proof.
  intros Hrun Hreq Hallow Hitems Hch Hids options'.
  assert (Hfield : field options "allowCredentials" = VArr items props)
    by (unfold field; by rewrite Hallow).
  assert (Hok : request_options_decodable env options = true).
  { unfold request_options_decodable. rewrite Hch, Hfield. exact Hids. }
  split; [|split; [|split; [|split]]].
  - revert Hrun. unfold authenticate.
    unfold bind at 1. rewrite Hreq.
    unfold bind at 1. unfold get at 1, lift at 1. rewrite Hallow.
    unfold bind at 1. unfold get at 1, lift at 1. simpl get_prop.
    assert (Hlen : strict_eq_num (VNum (Z.of_nat (length items))) 0 = false).
    { simpl. apply Z.eqb_neq. destruct items; [done|]. simpl length. lia. }
    cbv beta iota. rewrite Hlen.
    unfold bind at 1. rewrite (decode_request_options_ok _ _ _ Hok).
    unfold request_decodings. rewrite Hfield. simpl entries.
    set (w2 := emit_all _ w1).
    unfold bind at 1, navigator_credentials_get at 1.
    destruct (credentials_get env (trace w2) _) as [cred|e].
    + set (w3 := emit _ w2).
      destruct (authenticate_finish_emits (fun _ => True) env cred
                  ltac:(done) w3) as (evs & Htr & _).
      intros Hrun. rewrite Hrun in Htr. simpl in Htr.
      exists (Ok cred), evs. rewrite Htr. by rewrite <- !app_assoc.
    + intros [= <- <-]. exists (Throw e), []. simpl.
      by rewrite <- !app_assoc.
  - unfold options', decoded_request_options.
    rewrite field_write_back_ne by done. by apply decoded_field.
  - unfold options', decoded_request_options.
    assert (Hobj : match decoded env "challenge" options with
                   | VObj _ | VArr _ _ => true
                   | _ => false
                   end = true).
    { unfold decoded.
      destruct (base64url_decode (base64url env) _); by destruct options. }
    rewrite field_write_back_eq by done.
    by rewrite decoded_field_ne, Hfield by done.
  - by apply decoded_ids.
  - destruct (request_options_trace _ _ _ _ Hreq)
      as (_ & url & init & res & ->).
    simpl. do 3 (constructor; [done|]).
    apply Forall_forall. intros e He.
    apply list_elem_of_In, in_map_iff in He as (c & <- & _). done.
Qed.

Lemma authenticate_decodes_every_allowed_credential_witness :
  let env := Demo.env Demo.signin_server (Ok Demo.assertion) in
  let run := authenticate env (start Demo.stored) in
  let options := of_json Demo.signin_options in
  let items := List.map of_json Demo.allowed in
  let options' := decoded_request_options env options in
  length items = 3%nat
  /\ (exists res post,
         trace run.2 =
           trace (request_options env (start Demo.stored)).2
             ++ decoding env "challenge" options
             :: List.map (decoding env "id") items
             ++ EvGet (VObj [("publicKey", options')]) res :: post)
  /\ decodes_to env (field options "challenge") (field options' "challenge")
  /\ field options' "allowCredentials"
     = VArr (List.map (decoded env "id") items) []
  /\ Forall2 (id_decoded env) items (List.map (decoded env "id") items)
  /\ Forall (fun e => is_platform_call e = false)
       (trace (request_options env (start Demo.stored)).2
          ++ decoding env "challenge" options
          :: List.map (decoding env "id") items).
Proof.
  intros env run options items options'. split; [reflexivity|].
  apply (authenticate_decodes_every_allowed_credential env Demo.stored
           options (request_options env (start Demo.stored)).2 items []
           run.1 run.2).
  - apply surjective_pairing.
  - reflexivity.
  - reflexivity.
  - discriminate.
  - reflexivity.
  - reflexivity.
Defined.

(** ** The examples of the specification, run on the model *)

Example codec_decodes :
  Demo.decode_text (VStr "dXNlcg") = Some (Demo.bytes "user")
  /\ Demo.decode_text (VStr "Y2hhbGxlbmdl") = Some (Demo.bytes "challenge")
  /\ Demo.encode_data (VBuf (Demo.bytes "challenge")) = "Y2hhbGxlbmdl".
Proof. by vm_compute. Qed.

Example codec_rejects_malformed_text :
  Demo.decode_text (VStr "not base64!!") = None.
Proof. reflexivity. Qed.

Example escaping_in_query_string :
  encodeURIComponent "a b/c?d=e&f_-.!~*'()" = "a%20b%2Fc%3Fd%3De%26f_-.!~*'()".
Proof. reflexivity. Qed.

(** Registration happy path: ["abc"] is persisted and a text-encoded payload
    is posted for verification. *)
Example registration_happy_path :
  let env := Demo.env Demo.registration_server (Ok Demo.attestation) in
  let run := registerCredential env (start ∅) in
  run.1 = Ok (VObj [("ok", VBool true)])
  /\ storage run.2 !! "credId" = Some "abc"
  /\ List.map (fun e => match e with
                        | EvFetch path init _ => Some (path, body init)
                        | _ => None
                        end) (trace run.2)
     = [Some ("/auth/registerRequest",
              BodyJSON
                (JObj [("attestation", JStr "none");
                       ("authenticatorSelection",
                        JObj [("authenticatorAttachment", JStr "platform");
                              ("userVerification", JStr "required");
                              ("requireResistantKey", JBool false)])]));
        None; None; None; None; None; None; None;
        Some ("/auth/registerResponse",
              BodyJSON
                (JObj [("id", JStr "abc"); ("rawId", JStr "YWJj");
                       ("type", JStr "public-key");
                       ("response",
                        JObj [("clientDataJSON", JStr "e30");
                              ("attestationObject", JStr "YXR0")])]))].
Proof. by vm_compute. Qed.

(** Transport error propagation: a non-200 answer [{error: "bad challenge"}]
    rejects the ceremony with the string ["bad challenge"]. *)
Example transport_error_propagates :
  let env := Demo.env (fun _ => Demo.failed 400 "bad challenge")
               (Ok Demo.attestation) in
  (registerCredential env (start ∅)).1 = Throw (Thrown (VStr "bad challenge"))
  /\ (authenticate env (start ∅)).1 = Throw (Thrown (VStr "bad challenge"))
  /\ (unregisterCredential env "abc" (start ∅)).1
     = Throw (Thrown (VStr "bad challenge")).
Proof. by vm_compute. Qed.

(** A rejection by the authenticator is raised again unchanged, and nothing
    is persisted. *)
Example platform_rejection_propagates :
  let env := Demo.env Demo.registration_server
               (Throw (HostError "NotAllowedError")) in
  let run := registerCredential env (start ∅) in
  run.1 = Throw (HostError "NotAllowedError")
  /\ storage run.2 !! "credId" = None.
Proof. by vm_compute. Qed.

(** Authentication happy path: the stored identifier goes into the query
    string, [get] is called, and the encoded assertion is posted. *)
Example authentication_happy_path :
  let env := Demo.env Demo.signin_server (Ok Demo.assertion) in
  let run := authenticate env (start Demo.stored) in
  run.1 = Ok (VObj [("ok", VBool true)])
  /\ List.map (fun e => match e with
                        | EvFetch path init _ => Some (path, body init)
                        | _ => None
                        end) (filter (fun e => is_fetch e = true) (trace run.2))
     = [Some ("/auth/signinRequest?credId=abc", BodyJSON (JObj []));
        Some ("/auth/signinResponse",
              BodyJSON
                (JObj [("id", JStr "abc"); ("type", JStr "public-key");
                       ("rawId", JStr "YWJj");
                       ("response",
                        JObj [("clientDataJSON", JStr "e30");
                              ("authenticatorData", JStr "ZGF0YQ");
                              ("signature", JStr "c2ln");
                              ("userHandle", JStr "dXNlcg")])]))]
  /\ length (filter (fun e => is_platform_call e = true) (trace run.2)) = 1%nat.
Proof. by vm_compute. Qed.

(** Unregistration with another identifier than the stored one, and a
    second time with nothing stored. *)
Example unregistration_is_idempotent :
  let env := Demo.env (fun _ => Demo.ok (JObj [])) (Ok Demo.assertion) in
  let first := unregisterCredential env "xyz" (start Demo.stored) in
  let second := unregisterCredential env "xyz" (start (storage first.2)) in
  first.1 = Ok (VObj []) /\ storage first.2 !! "credId" = None
  /\ second.1 = Ok (VObj []) /\ storage second.2 !! "credId" = None
  /\ length (trace second.2) = 2%nat.
Proof. by vm_compute. Qed.

(** A non-200 answer whose body is [null] has no [error] field to throw. *)
Example null_error_body :
  let env := Demo.env (fun _ => Ok {| status := 500; json := Some JNull |})
               (Ok Demo.assertion) in
  (_fetch env "/auth/registerRequest" (PValue creation_opts) (start ∅)).1
  = Throw TypeError.
Proof. reflexivity. Qed.

(** ** Every run of a ceremony *)

Lemma get_prop_some v k id k' :
  get_prop v k = Ok id -> get_prop v k' = Ok (field v k').
Proof.
  intros Hid. unfold field. destruct v; try done; simpl;
    by destruct (String.eqb k' "length").
Qed.

Lemma get_prop_throws v k e : get_prop v k = Throw e -> e = TypeError.
Proof.
  destruct v; simpl; try congruence;
    destruct (String.eqb k "length"); congruence.
Qed.

Lemma truthy_get_prop v k : truthy v = true -> get_prop v k = Ok (field v k).
Proof.
  intros Hv. unfold field. destruct v; try done; simpl;
    by destruct (String.eqb k "length").
Qed.

(** The object built from a credential with a response bundle (lines
    88-99), and the encodings it takes. *)
Lemma encode_attestation_present env cred id w :
  get_prop cred "id" = Ok id ->
  truthy (field cred "response") = true ->
  let encoded k v := VStr (base64url_encode (base64url env) (field v k)) in
  let called k v :=
    EvEncode (field v k) (base64url_encode (base64url env) (field v k)) in
  encode_attestation env cred w =
    (Ok (VObj [("id", id);
               ("rawId", encoded "rawId" cred);
               ("type", field cred "type");
               ("response",
                VObj [("clientDataJSON",
                       encoded "clientDataJSON" (field cred "response"));
                      ("attestationObject",
                       encoded "attestationObject" (field cred "response"))])]),
     emit_all [called "rawId" cred;
               called "clientDataJSON" (field cred "response");
               called "attestationObject" (field cred "response")] w).
Proof.
  intros Hid Hresp encoded called.
  unfold encode_attestation, bind, get, set, lift, encode, ret.
  rewrite Hid, !(get_prop_some _ _ _ _ Hid). simpl. rewrite Hresp.
  rewrite !(truthy_get_prop _ _ Hresp). simpl.
  by rewrite !emit_emit_all, !emit_all_app.
Qed.

Lemma encode_attestation_uniform env cred id :
  get_prop cred "id" = Ok id ->
  exists credential encs,
    (forall w, encode_attestation env cred w
               = (Ok credential, emit_all encs w))
    /\ Forall (fun e => is_encode e = true) encs
    /\ get_prop credential "id" = Ok id.
Proof.
  intros Hid. destruct (truthy (field cred "response")) eqn:Hresp.
  - eexists; eexists; split; [|split].
    + intros w. by apply encode_attestation_present.
    + by repeat constructor.
    + done.
  - eexists; eexists; split; [|split].
    + intros w. rewrite (encode_attestation_absent _ _ _ _ Hid Hresp).
      by rewrite emit_emit_all.
    + by repeat constructor.
    + done.
Qed.

(** The same for an assertion (lines 153-169). *)
Lemma encode_assertion_present env cred id w :
  get_prop cred "id" = Ok id ->
  truthy (field cred "response") = true ->
  let encoded k v := VStr (base64url_encode (base64url env) (field v k)) in
  let called k v :=
    EvEncode (field v k) (base64url_encode (base64url env) (field v k)) in
  encode_assertion env cred w =
    (Ok (VObj [("id", id);
               ("type", field cred "type");
               ("rawId", encoded "rawId" cred);
               ("response",
                VObj [("clientDataJSON",
                       encoded "clientDataJSON" (field cred "response"));
                      ("authenticatorData",
                       encoded "authenticatorData" (field cred "response"));
                      ("signature",
                       encoded "signature" (field cred "response"));
                      ("userHandle",
                       encoded "userHandle" (field cred "response"))])]),
     emit_all [called "rawId" cred;
               called "clientDataJSON" (field cred "response");
               called "authenticatorData" (field cred "response");
               called "signature" (field cred "response");
               called "userHandle" (field cred "response")] w).
Proof.
  intros Hid Hresp encoded called.
  unfold encode_assertion, bind, get, set, lift, encode, ret.
  rewrite Hid, !(get_prop_some _ _ _ _ Hid). simpl. rewrite Hresp.
  rewrite !(truthy_get_prop _ _ Hresp). simpl.
  by rewrite !emit_emit_all, !emit_all_app.
Qed.

Lemma encode_assertion_absent env cred id w :
  get_prop cred "id" = Ok id ->
  truthy (field cred "response") = false ->
  encode_assertion env cred w =
    (Ok (VObj [("id", id);
               ("type", field cred "type");
               ("rawId",
                VStr (base64url_encode (base64url env) (field cred "rawId")))]),
     emit_all [EvEncode (field cred "rawId")
                 (base64url_encode (base64url env) (field cred "rawId"))] w).
Proof.
  intros Hid Hresp.
  unfold encode_assertion, bind, get, set, lift, encode, ret.
  rewrite Hid, !(get_prop_some _ _ _ _ Hid). simpl. by rewrite Hresp.
Qed.

Lemma encode_assertion_none env cred e w :
  get_prop cred "id" = Throw e ->
  encode_assertion env cred w = (Throw e, w).
Proof.
  intros Hid. unfold encode_assertion, bind, get, lift. by rewrite Hid.
Qed.

Lemma encode_assertion_uniform env cred id :
  get_prop cred "id" = Ok id ->
  exists credential encs,
    (forall w, encode_assertion env cred w
               = (Ok credential, emit_all encs w))
    /\ Forall (fun e => is_encode e = true) encs.
Proof.
  intros Hid. destruct (truthy (field cred "response")) eqn:Hresp.
  - eexists; eexists; split.
    + intros w. by apply encode_assertion_present.
    + by repeat constructor.
  - eexists; eexists; split.
    + intros w. by apply encode_assertion_absent.
    + by repeat constructor.
Qed.

Lemma decoding_run_ok {A : Type} (a : A) evs :
  decoding_run (Ok a) evs ->
  Forall (fun e => is_decode e = true) evs
  /\ Forall (fun e => is_failed_decode e = false) evs.
Proof. by intros [Hd [?|Hs]]. Qed.

(** A registration ends at one of the stages of [RegisterRun]. *)
Lemma register_run env st :
  RegisterRun env st (registerCredential env (start st)).1
    (registerCredential env (start st)).2.
Proof.
  destruct (registerCredential env (start st)) as [out w'] eqn:Hrun.
  simpl. revert Hrun.
  unfold registerCredential. unfold bind at 1. rewrite fetch_run.
  set (r0 := fetch env _ _ _).
  destruct (settle r0) as [options|e] eqn:Hr0.
  2:{ intros [= <- <-]. by apply reg_options_rejected. }
  unfold bind at 1.
  destruct (decode_creation_options_any env options
              (emit (creation_request r0) (start st)))
    as (r1 & decs & Hdec & Hdecs).
  fold (creation_request r0). rewrite Hdec.
  destruct r1 as [options'|e].
  2:{ intros [= <- <-]. by eapply reg_decoding_failed. }
  unfold bind at 1, navigator_credentials_create at 1.
  set (w1 := emit_all decs (emit (creation_request r0) (start st))).
  set (arg := VObj [("publicKey", options')]).
  destruct (credentials_create env (trace w1) arg) as [cred|e].
  2:{ intros [= <- <-]. by eapply reg_platform_rejected. }
  set (w2 := emit (EvCreate arg (Ok cred)) w1).
  destruct (get_prop cred "id") as [id|e] eqn:Hid.
  2:{ unfold bind at 1. rewrite (encode_attestation_none _ _ _ _ Hid).
      intros [= <- <-].
      eapply (reg_encoding_failed env st r0 options decs options' cred []);
        eauto. }
  destruct (encode_attestation_uniform env cred id Hid)
    as (credential & encs & Henc & Hencs & Hcid).
  unfold bind at 1. rewrite Henc.
  unfold bind at 1. unfold get at 1, lift at 1. rewrite Hcid.
  unfold bind at 1. unfold localStorage_setItem, bind, lift.
  destruct (to_string id) as [s|e] eqn:Hs.
  - rewrite fetch_run. intros [= <- <-].
    set (res := fetch env _ _ _).
    pose proof (reg_submitted env st r0 options decs options' cred credential
                  encs id s res Hr0 Hdecs Hid Hs Henc Hencs) as Hstage.
    replace (emit _ _) with
      {| storage := <["credId" := s]> st;
         trace := creation_request r0
                    :: decs ++ EvCreate (VObj [("publicKey", options')])
                                 (Ok cred)
                    :: encs ++ [EvSetItem "credId" s;
                                EvFetch "/auth/registerResponse"
                                  (request_init (PValue credential)) res] |};
      [exact Hstage|].
    unfold emit, emit_all; simpl. f_equal.
    by rewrite <- !app_assoc.
  - intros [= <- <-].
    pose proof (reg_encoding_failed env st r0 options decs options' cred encs
                  e Hr0 Hdecs Hencs) as Hstage.
    replace (emit_all encs w2) with
      {| storage := st;
         trace := creation_request r0
                    :: decs ++ EvCreate (VObj [("publicKey", options')])
                                 (Ok cred) :: encs |};
      [apply Hstage; eauto|].
    unfold emit, emit_all; simpl. f_equal.
    by rewrite <- !app_assoc.
Qed.

Lemma request_options_path env st :
  request_options env (start st) =
    _fetch env (signin_path (st !! "credId")) (PValue (VObj []))
      (emit (EvGetItem "credId" (st !! "credId")) (start st)).
Proof.
  unfold request_options, bind, localStorage_getItem, signin_url, signin_path.
  simpl. destruct (st !! "credId") as [s|]; simpl; [|done].
  by destruct (String.eqb s ""); unfold bind, lift, ret; simpl.
Qed.

Lemma decode_request_options_any env options :
  decodes_only (decode_request_options env options).
Proof.
  unfold decode_request_options, get, set.
  repeat (apply decodes_only_bind; intros;
          [first [apply decodes_only_lift | apply decodes_only_decode
                 | apply decodes_only_for_of]|]).
  apply (decodes_only_lift (Ok _)).
Qed.

(** An authentication ends at one of the stages of [AuthRun]. *)
Lemma authenticate_run env st :
  AuthRun env st (authenticate env (start st)).1
    (authenticate env (start st)).2.
Proof.
  destruct (authenticate env (start st)) as [out w'] eqn:Hrun.
  simpl. revert Hrun.
  unfold authenticate. unfold bind at 1.
  rewrite request_options_path, fetch_run.
  set (r0 := fetch env _ _ _). fold (signin_request (st !! "credId") r0).
  set (w0 := emit (signin_request (st !! "credId") r0) _).
  destruct (settle r0) as [options|e] eqn:Hr0.
  2:{ intros [= <- <-]. by apply auth_options_rejected. }
  unfold bind at 1. unfold get at 1, lift at 1.
  destruct (get_prop options "allowCredentials") as [allow|e] eqn:Hallow.
  2:{ intros [= <- <-]. eapply auth_options_malformed; eauto. }
  assert (Hfield : field options "allowCredentials" = allow)
    by (unfold field; by rewrite Hallow).
  unfold bind at 1. unfold get at 1, lift at 1.
  destruct (get_prop allow "length") as [len|e] eqn:Hlen.
  2:{ intros [= <- <-]. eapply auth_options_malformed; eauto.
      right. by rewrite Hfield. }
  destruct (strict_eq_num len 0) eqn:Hzero.
  { intros [= <- <-]. eapply auth_no_credential; eauto.
    rewrite Hfield. unfold field. by rewrite Hlen. }
  unfold bind at 1.
  destruct (decode_request_options_any env options w0)
    as (r1 & decs & -> & Hdecs).
  destruct r1 as [options'|e].
  2:{ intros [= <- <-]. by eapply auth_decoding_failed. }
  unfold bind at 1, navigator_credentials_get at 1.
  set (w1 := emit_all decs w0).
  set (arg := VObj [("publicKey", options')]).
  destruct (credentials_get env (trace w1) arg) as [cred|e].
  2:{ intros [= <- <-]. by eapply auth_platform_rejected. }
  set (w2 := emit (EvGet arg (Ok cred)) w1).
  destruct (get_prop cred "id") as [id|e] eqn:Hid.
  2:{ unfold bind at 1. rewrite (encode_assertion_none _ _ _ _ Hid).
      intros [= <- <-]. by eapply auth_encoding_failed. }
  destruct (encode_assertion_uniform env cred id Hid)
    as (credential & encs & Henc & Hencs).
  unfold bind at 1. rewrite Henc, fetch_run. intros [= <- <-].
  set (res := fetch env _ _ _).
  pose proof (auth_submitted env st r0 options decs options' cred credential
                encs id res Hr0 Hdecs Hid Henc Hencs) as Hstage.
  replace (emit _ _) with
    {| storage := st;
       trace := EvGetItem "credId" (st !! "credId")
                  :: signin_request (st !! "credId") r0
                  :: decs ++ EvGet (VObj [("publicKey", options')]) (Ok cred)
                  :: encs ++ [EvFetch "/auth/signinResponse"
                                (request_init (PValue credential)) res] |};
    [exact Hstage|].
  unfold emit, emit_all; simpl. f_equal.
  by rewrite <- !app_assoc.
Qed.

(** ** Further properties of the Transport Adapter *)

Lemma truthy_to_json v : truthy v = true -> exists j, to_json v = Some j.
Proof. destruct v; try done; simpl; eauto. Qed.

Lemma settle_ok r v :
  settle r = Ok v <->
  exists res j,
    r = Ok res /\ status res = 200 /\ json res = Some j /\ v = of_json j.
Proof.
  unfold settle. split.
  - destruct r as [res|e]; [|done].
    destruct (json res) as [j|] eqn:Hj; [|done].
    destruct (status res =? 200) eqn:Hs.
    + intros [= <-]. apply Z.eqb_eq in Hs. by exists res, j.
    + by destruct (get_prop (of_json j) "error").
  - intros (res & j & -> & Hs & -> & ->). by rewrite Hs.
Qed.

(** X1. Whatever the path and the payload, [_fetch] makes a single call to
    [fetch] and settles on its answer, without retry; the request is a
    POST with same-origin credentials and the header
    [X-Requested-With: XMLHttpRequest]; [localStorage] is not touched. *)
Theorem fetch_makes_one_same_origin_post env path payload w :
  exists init res,
    _fetch env path payload w = (settle res, emit (EvFetch path init res) w)
    /\ res = fetch env (trace w) path init
    /\ method init = "POST"
    /\ credentials init = "same-origin"
    /\ own "X-Requested-With" (headers init) = Some "XMLHttpRequest"
    /\ storage (_fetch env path payload w).2 = storage w.
Proof.
  exists (request_init payload), (fetch env (trace w) path (request_init payload)).
  rewrite fetch_run. split; [done|]. split; [done|].
  unfold request_init.
  destruct payload as [v|f]; [|done].
  destruct v; try done; simpl;
    match goal with
    | |- context [if ?b then _ else _] => by destruct b
    end.
Qed.

(** X2. The payload decides the body: a payload that is a truthy value is
    sent as its JSON text, announced by [Content-Type: application/json];
    any other payload (a [FormData], a falsy value, none) is handed to
    [fetch] without serialisation and without a content type. *)
Theorem fetch_serialises_truthy_payloads_only payload :
  let init := request_init payload in
  ((exists v, payload = PValue v /\ truthy v = true) ->
   exists v j,
     payload = PValue v /\ to_json v = Some j /\ body init = BodyJSON j
     /\ own "Content-Type" (headers init) = Some "application/json")
  /\ (~ (exists v, payload = PValue v /\ truthy v = true) ->
      own "Content-Type" (headers init) = None
      /\ (forall j, body init <> BodyJSON j)
      /\ match payload with
         | PForm f => body init = BodyForm f
         | PValue VUndef => body init = BodyValue (VStr "")
         | PValue v => body init = BodyValue v
         end).
Proof.
  intros init. split.
  - intros (v & -> & Hv). destruct (truthy_to_json v Hv) as (j & Hj).
    exists v, j. split; [done|]. split; [done|].
    unfold init, request_init.
    destruct v; try done; cbv beta iota zeta; by rewrite Hv, Hj.
  - intros Hnot. unfold init, request_init.
    destruct payload as [v|f]; [|done].
    destruct (truthy v) eqn:Hv; [exfalso; eauto|].
    destruct v; try done; cbv beta iota zeta; by rewrite Hv.
Qed.

Lemma fetch_serialises_truthy_payloads_only_witness :
  (exists v j,
      PValue creation_opts = PValue v /\ to_json v = Some j
      /\ body (request_init (PValue creation_opts)) = BodyJSON j
      /\ own "Content-Type" (headers (request_init (PValue creation_opts)))
         = Some "application/json")
  /\ own "Content-Type" (headers (request_init (PForm [("k", "v")]))) = None
  /\ body (request_init (PForm [("k", "v")])) = BodyForm [("k", "v")]
  /\ body (request_init (PValue (VNum 0))) = BodyValue (VNum 0).
Proof.
  split; [|split; [|split]].
  - apply (fetch_serialises_truthy_payloads_only (PValue creation_opts)).
    by exists creation_opts.
  - apply (fetch_serialises_truthy_payloads_only (PForm [("k", "v")])).
    by intros (v & Hv & _).
  - apply (fetch_serialises_truthy_payloads_only (PForm [("k", "v")])).
    by intros (v & Hv & _).
  - apply (fetch_serialises_truthy_payloads_only (PValue (VNum 0))).
    by intros (v & [= <-] & Hv).
Defined.

(** X3. [_fetch] resolves exactly when the network answered with status 200
    and a body that parses as JSON, and then with that parsed body: a
    network failure, any other status and an unparsable body all reject. *)
Theorem fetch_resolves_iff_status_200_and_json env path payload w v :
  (_fetch env path payload w).1 = Ok v <->
  exists res j,
    fetch env (trace w) path (request_init payload) = Ok res
    /\ status res = 200 /\ json res = Some j /\ v = of_json j.
Proof. rewrite fetch_run. apply settle_ok. Qed.

Lemma fetch_resolves_iff_status_200_and_json_witness :
  (_fetch (Demo.env (fun _ => Demo.ok (JObj [("ok", JBool true)]))
             (Ok Demo.assertion))
     "/auth/removeKey" (PValue VUndef) (start ∅)).1
  = Ok (VObj [("ok", VBool true)]).
Proof.
  apply (fetch_resolves_iff_status_200_and_json
           (Demo.env (fun _ => Demo.ok (JObj [("ok", JBool true)]))
              (Ok Demo.assertion))
           "/auth/removeKey" (PValue VUndef) (start ∅)).
  exists {| status := 200; json := Some (JObj [("ok", JBool true)]) |},
    (JObj [("ok", JBool true)]).
  repeat split; reflexivity.
Defined.

(** X4. When [_fetch] rejects, the reason is one of four: the reason of the
    network failure, unchanged; a [SyntaxError] when the body is not JSON,
    whatever the status; the [error] field of the parsed body on a status
    other than 200; or a [TypeError] when that body is [null]. *)
Theorem fetch_rejection_reasons env path payload w e :
  (_fetch env path payload w).1 = Throw e ->
  let answer := fetch env (trace w) path (request_init payload) in
  answer = Throw e
  \/ (exists res, answer = Ok res /\ json res = None /\ e = SyntaxError)
  \/ (exists res j,
        answer = Ok res /\ status res <> 200 /\ json res = Some j
        /\ (j = JNull /\ e = TypeError
            \/ j <> JNull /\ e = Thrown (field (of_json j) "error"))).
Proof.
  rewrite fetch_run. unfold settle. simpl.
  destruct (fetch env (trace w) path (request_init payload)) as [res|e'];
    [|intros [= ->]; by left].
  destruct (json res) as [j|] eqn:Hj; [|intros [= <-]; right; left; eauto].
  destruct (status res =? 200) eqn:Hs; [done|].
  apply Z.eqb_neq in Hs. intros He. right; right. exists res, j.
  split; [done|]. split; [done|]. split; [done|].
  destruct j; simpl in He; injection He as <-;
    first [left; done | right; done].
Qed.

Lemma fetch_rejection_reasons_witness :
  let env := Demo.env (fun _ => Ok {| status := 404; json := None |})
               (Ok Demo.assertion) in
  let answer := fetch env [] "/auth/removeKey" (request_init (PValue VUndef)) in
  answer = Throw SyntaxError
  \/ (exists res, answer = Ok res /\ json res = None
                  /\ SyntaxError = SyntaxError)
  \/ (exists res j,
        answer = Ok res /\ status res <> 200 /\ json res = Some j
        /\ (j = JNull /\ SyntaxError = TypeError
            \/ j <> JNull
               /\ SyntaxError = Thrown (field (of_json j) "error"))).
Proof.
  intros env answer.
  apply (fetch_rejection_reasons env "/auth/removeKey" (PValue VUndef)
           (start ∅) SyntaxError).
  reflexivity.
Defined.

(** ** Further properties of the Unregistration Operation *)

Lemma hex_digit_unreserved c :
  uri_unreserved (hex_digit (N_of_ascii c / 16)) = true
  /\ uri_unreserved (hex_digit (N_of_ascii c mod 16)) = true.
Proof. by destruct c as [[] [] [] [] [] [] [] []]. Qed.

(** The text [encodeURIComponent] returns is made of unreserved characters
    and of [%]. *)
Lemma encodeURIComponent_escaped s c :
  In c (list_ascii_of_string (encodeURIComponent s)) ->
  uri_unreserved c = true \/ c = "%"%char.
Proof.
  induction s as [|c0 s IH]; cbn [encodeURIComponent]; [done|].
  destruct (uri_unreserved c0) eqn:Hc0; cbn [list_ascii_of_string In].
  - intros [<-|Hin]; [by left|by apply IH].
  - destruct (hex_digit_unreserved c0) as [Hhi Hlo].
    intros [<-|[<-|[<-|Hin]]]; [by right|by left|by left|by apply IH].
Qed.

Lemma encodeURIComponent_unreserved s :
  forallb uri_unreserved (list_ascii_of_string s) = true ->
  encodeURIComponent s = s.
Proof.
  induction s as [|c s IH]; cbn [encodeURIComponent list_ascii_of_string forallb];
    [done|].
  intros [Hc Hs]%andb_prop. by rewrite Hc, IH.
Qed.

Lemma hex_digit_inj a b :
  (a < 16)%N -> (b < 16)%N -> hex_digit a = hex_digit b -> a = b.
Proof.
  unfold hex_digit. intros Ha Hb Heq.
  apply (f_equal N_of_ascii) in Heq.
  destruct (N.ltb_spec a 10), (N.ltb_spec b 10);
    rewrite !N_ascii_embedding in Heq by lia; lia.
Qed.

Lemma escape_inj c1 c2 :
  hex_digit (N_of_ascii c1 / 16) = hex_digit (N_of_ascii c2 / 16) ->
  hex_digit (N_of_ascii c1 mod 16) = hex_digit (N_of_ascii c2 mod 16) ->
  c1 = c2.
Proof.
  intros Hhi Hlo.
  pose proof (N_ascii_bounded c1) as Hc1.
  pose proof (N_ascii_bounded c2) as Hc2.
  apply hex_digit_inj in Hhi;
    [|apply N.Div0.div_lt_upper_bound; lia..].
  apply hex_digit_inj in Hlo; [|apply N.mod_lt; lia..].
  rewrite <- (ascii_N_embedding c1), <- (ascii_N_embedding c2).
  f_equal.
  rewrite (N.div_mod' (N_of_ascii c1) 16), (N.div_mod' (N_of_ascii c2) 16).
  congruence.
Qed.

(** Escaping loses nothing: different texts have different escaped forms. *)
Lemma encodeURIComponent_inj s1 s2 :
  encodeURIComponent s1 = encodeURIComponent s2 -> s1 = s2.
Proof.
  revert s2. induction s1 as [|c1 s1 IH]; intros [|c2 s2];
    cbn [encodeURIComponent]; [done|..].
  - by destruct (uri_unreserved c2).
  - by destruct (uri_unreserved c1).
  - destruct (uri_unreserved c1) eqn:H1, (uri_unreserved c2) eqn:H2.
    + intros [= -> Heq]. by rewrite (IH _ Heq).
    + intros [= -> _]. discriminate H1.
    + intros [= <- _]. discriminate H2.
    + intros [= Hhi Hlo Heq].
      by rewrite (escape_inj _ _ Hhi Hlo), (IH _ Heq).
Qed.

Lemma unregister_request env credId st path init res :
  In (EvFetch path init res)
     (trace (unregisterCredential env credId (start st)).2) ->
  path = ("/auth/removeKey?credId=" ++ encodeURIComponent credId)%string.
Proof.
  unfold unregisterCredential, bind, localStorage_removeItem.
  rewrite fetch_run. cbn [trace emit fst snd start app].
  intros [Hin|[Hin|[]]]; [discriminate Hin|]. by injection Hin as <- _ _.
Qed.

(** X5. The identifier cannot break out of the query string of the
    removal request: whatever text [unregisterCredential] is given, what
    follows [credId=] in the path is made of unreserved characters and of
    [%] only, so that none of the delimiters of a URL occurs in it. *)
Theorem unregister_query_is_escaped env credId st path init res :
  In (EvFetch path init res)
     (trace (unregisterCredential env credId (start st)).2) ->
  exists q,
    path = ("/auth/removeKey?credId=" ++ q)%string
    /\ (forall c, In c (list_ascii_of_string q) ->
        uri_unreserved c = true \/ c = "%"%char)
    /\ (forall c, In c (list_ascii_of_string "&=?#/+ ;:@$,") ->
        ~ In c (list_ascii_of_string q)).
Proof.
  intros Hin. apply unregister_request in Hin as ->.
  exists (encodeURIComponent credId). split; [done|].
  split; [apply encodeURIComponent_escaped|].
  intros c Hc Hq.
  apply encodeURIComponent_escaped in Hq as [Hq| ->].
  - cbn [list_ascii_of_string In] in Hc.
    repeat (destruct Hc as [<-|Hc]; [discriminate Hq|]). exact Hc.
  - cbn [list_ascii_of_string In] in Hc.
    repeat (destruct Hc as [Hc|Hc]; [discriminate Hc|]). exact Hc.
Qed.

Lemma unregister_query_is_escaped_witness :
  exists q,
    "/auth/removeKey?credId=a%26b%3Dc" = ("/auth/removeKey?credId=" ++ q)%string
    /\ (forall c, In c (list_ascii_of_string q) ->
        uri_unreserved c = true \/ c = "%"%char)
    /\ (forall c, In c (list_ascii_of_string "&=?#/+ ;:@$,") ->
        ~ In c (list_ascii_of_string q)).
Proof.
  apply (unregister_query_is_escaped
           (Demo.env (fun _ => Demo.ok (JObj [])) (Ok Demo.assertion))
           "a&b=c" ∅ "/auth/removeKey?credId=a%26b%3Dc"
           (request_init (PValue VUndef)) (Demo.ok (JObj []))).
  vm_compute. auto.
Defined.

(** X6. An identifier made of unreserved characters only, as the url-safe
    base64 text of a credential identifier is, travels verbatim: the path
    of the removal request is [/auth/removeKey?credId=] followed by the
    identifier itself. *)
Theorem unregister_url_safe_identifier_verbatim env credId st :
  forallb uri_unreserved (list_ascii_of_string credId) = true ->
  exists init res,
    trace (unregisterCredential env credId (start st)).2
    = [EvRemoveItem "credId";
       EvFetch ("/auth/removeKey?credId=" ++ credId)%string init res].
Proof.
  intros Hsafe. unfold unregisterCredential, bind, localStorage_removeItem.
  rewrite fetch_run, (encodeURIComponent_unreserved _ Hsafe).
  by eexists; eexists.
Qed.

Lemma unregister_url_safe_identifier_verbatim_witness :
  exists init res,
    trace (unregisterCredential
             (Demo.env (fun _ => Demo.ok (JObj [])) (Ok Demo.assertion))
             "dXNlcg-_" (start Demo.stored)).2
    = [EvRemoveItem "credId";
       EvFetch "/auth/removeKey?credId=dXNlcg-_" init res].
Proof.
  apply (unregister_url_safe_identifier_verbatim
           (Demo.env (fun _ => Demo.ok (JObj [])) (Ok Demo.assertion))
           "dXNlcg-_" Demo.stored).
  reflexivity.
Defined.

(** X7. Removal requests tell identifiers apart: two calls of
    [unregisterCredential], in whatever environments and storages, that
    request the same path were given the same identifier. *)
Theorem unregister_requests_tell_identifiers_apart
    env1 env2 id1 id2 st1 st2 path init1 res1 init2 res2 :
  In (EvFetch path init1 res1)
     (trace (unregisterCredential env1 id1 (start st1)).2) ->
  In (EvFetch path init2 res2)
     (trace (unregisterCredential env2 id2 (start st2)).2) ->
  id1 = id2.
Proof.
  intros H1%unregister_request H2%unregister_request.
  rewrite H1 in H2. simpl in H2. injection H2 as H2.
  by apply encodeURIComponent_inj.
Qed.

Lemma unregister_requests_tell_identifiers_apart_witness :
  "a b" = "a b".
Proof.
  apply (unregister_requests_tell_identifiers_apart
           (Demo.env (fun _ => Demo.ok (JObj [])) (Ok Demo.assertion))
           (Demo.env (fun _ => Demo.failed 400 "no") (Ok Demo.assertion))
           "a b" "a b" ∅ Demo.stored "/auth/removeKey?credId=a%20b"
           (request_init (PValue VUndef)) (Demo.ok (JObj []))
           (request_init (PValue VUndef)) (Demo.failed 400 "no")).
  - vm_compute. auto.
  - vm_compute. auto.
Defined.

(** ** Further properties of the Registration Ceremony *)

Lemma calls_cons k e l :
  calls k (e :: l)
  = ((if kind_eqb (kind e) k then 1 else 0) + calls k l)%nat.
Proof. unfold calls. simpl. by destruct (kind_eqb (kind e) k). Qed.

Lemma calls_app k l1 l2 : calls k (l1 ++ l2) = (calls k l1 + calls k l2)%nat.
Proof. unfold calls. by rewrite List.filter_app, length_app. Qed.

Lemma calls_other_kind (P : Event -> bool) k l :
  (forall e, P e = true -> kind_eqb (kind e) k = false) ->
  Forall (fun e => P e = true) l ->
  calls k l = 0%nat.
Proof.
  intros HP Hl. unfold calls.
  induction Hl as [|e l He _ IH]; [done|].
  simpl. by rewrite (HP e He).
Qed.

Lemma calls_decodings k l :
  k <> KDecode -> Forall (fun e => is_decode e = true) l -> calls k l = 0%nat.
Proof.
  intros Hk. apply calls_other_kind.
  intros [] He; try done. by destruct k.
Qed.

Lemma calls_encodings k l :
  k <> KEncode -> Forall (fun e => is_encode e = true) l -> calls k l = 0%nat.
Proof.
  intros Hk. apply calls_other_kind.
  intros [] He; try done. by destruct k.
Qed.

Lemma of_kinds_decodings ks l :
  existsb (kind_eqb KDecode) ks = true ->
  Forall (fun e => is_decode e = true) l ->
  Forall (fun e => of_kinds ks e = true) l.
Proof.
  intros Hks Hl. eapply Forall_impl; [exact Hl|].
  by intros [] He.
Qed.

Lemma of_kinds_encodings ks l :
  existsb (kind_eqb KEncode) ks = true ->
  Forall (fun e => is_encode e = true) l ->
  Forall (fun e => of_kinds ks e = true) l.
Proof.
  intros Hks Hl. eapply Forall_impl; [exact Hl|].
  by intros [] He.
Qed.

Lemma in_decodings e l :
  In e l -> Forall (fun e => is_decode e = true) l -> is_decode e = true.
Proof. intros Hin Hl. by apply (proj1 (List.Forall_forall _ _) Hl). Qed.

Lemma in_encodings e l :
  In e l -> Forall (fun e => is_encode e = true) l -> is_encode e = true.
Proof. intros Hin Hl. by apply (proj1 (List.Forall_forall _ _) Hl). Qed.

Lemma decoding_run_decodings {A : Type} (r : result A) evs :
  decoding_run r evs -> Forall (fun e => is_decode e = true) evs.
Proof. by intros [? _]. Qed.

(** Splits a trace into its calls, and closes the goals about a single
    call by computation. *)
Ltac trace_calls :=
  repeat first
    [ apply Forall_nil_2
    | apply Forall_cons_2; [try done|]
    | apply Forall_app_2 ].

(** The cases of a membership in a trace; a call that is neither a decoding
    nor an encoding is in none of these stretches. *)
Ltac member_cases H :=
  simpl in H; rewrite ?in_app_iff in H; simpl in H;
  rewrite ?in_app_iff in H; simpl in H;
  repeat match type of H with
         | _ \/ _ => destruct H as [H|H]
         | False => destruct H
         end;
  try discriminate H;
  try (match goal with
       | Hd : Forall (fun e => is_decode e = true) ?l, Hin : In _ ?l |- _ =>
           by pose proof (in_decodings _ _ Hin Hd)
       | Hd : Forall (fun e => is_encode e = true) ?l, Hin : In _ ?l |- _ =>
           by pose proof (in_encodings _ _ Hin Hd)
       end).

Ltac register_stages env st :=
  let Hstage := fresh "Hstage" in
  pose proof (register_run env st) as Hstage;
  destruct (registerCredential env (start st)) as [out w'];
  cbn [fst snd] in *; destruct Hstage; cbn [trace storage] in *.

(** X8. A registration changes nothing of [localStorage] but the slot
    [credId]: the storage it leaves is the one it found, or that one with
    [credId] set; every other key keeps its value, or its absence. *)
Theorem register_writes_only_the_credId_slot env st :
  let w' := (registerCredential env (start st)).2 in
  (storage w' = st \/ exists s, storage w' = <["credId" := s]> st)
  /\ (forall k, k <> "credId" -> storage w' !! k = st !! k).
Proof.
  register_stages env st; (split; [eauto|intros k Hk; try done]).
  by apply lookup_insert_ne.
Qed.

Lemma register_writes_only_the_credId_slot_witness :
  storage (registerCredential
             (Demo.env Demo.registration_server (Ok Demo.attestation))
             (start {["theme" := "dark"]})).2 !! "theme"
  = ({["theme" := "dark"]} : gmap string string) !! "theme".
Proof.
  apply (register_writes_only_the_credId_slot
           (Demo.env Demo.registration_server (Ok Demo.attestation))
           {["theme" := "dark"]}).
  done.
Defined.

(** X9. What a registration stores is the identifier of the credential the
    authenticator made: a write to [localStorage] is a write of [credId],
    it comes after a call to [create] that returned a credential, and the
    value written is the text of that credential's [id]. *)
Theorem register_stores_the_created_identifier env st k s :
  let run := registerCredential env (start st) in
  In (EvSetItem k s) (trace run.2) ->
  k = "credId"
  /\ storage run.2 = <["credId" := s]> st
  /\ exists pre options cred id post,
      trace run.2 = pre ++ EvCreate options (Ok cred) :: post
      /\ In (EvSetItem k s) post
      /\ get_prop cred "id" = Ok id
      /\ to_string id = Ok s.
Proof.
  intros run. unfold run. clear run.
  register_stages env st; intros Hin;
    repeat match goal with
           | H : decoding_run _ _ |- _ => apply decoding_run_decodings in H
           end;
    member_cases Hin.
  injection Hin as <- <-. split; [done|]. split; [done|].
  exists (creation_request r0 :: decs), (VObj [("publicKey", options')]),
    cred, id.
  eexists. split; [by rewrite <- app_comm_cons|].
  split; [|done]. apply in_or_app. right. by left.
Qed.

Lemma register_stores_the_created_identifier_witness :
  let run := registerCredential
               (Demo.env Demo.registration_server (Ok Demo.attestation))
               (start ∅) in
  storage run.2 = <["credId" := "abc"]> ∅.
Proof.
  apply (register_stores_the_created_identifier
           (Demo.env Demo.registration_server (Ok Demo.attestation))
           ∅ "credId" "abc").
  vm_compute. auto 10.
Defined.

Lemma no_request_in_decodings path l :
  Forall (fun e => is_decode e = true) l ->
  Forall (fun e => is_request_to path e = false) l.
Proof.
  intros Hl. eapply Forall_impl; [exact Hl|]. by intros [].
Qed.

Lemma no_fetch_in_decodings l :
  Forall (fun e => is_decode e = true) l ->
  filter (fun e => is_fetch e = true) l = [].
Proof.
  intros Hl. apply filter_kind_nil. eapply Forall_impl; [exact Hl|].
  by intros [].
Qed.

(** X10. A registration in which [create] returned no credential is
    rejected and leaves no mark: [localStorage] is as it was found, the
    only request made is the one for options, and every other call is a
    decoding or the call to [create] itself. *)
Theorem register_without_credential_leaves_no_mark env st :
  let run := registerCredential env (start st) in
  (forall options cred, ~ In (EvCreate options (Ok cred)) (trace run.2)) ->
  (exists e, run.1 = Throw e)
  /\ storage run.2 = st
  /\ Forall (fun e => of_kinds [KFetch; KDecode; KCreate] e = true)
       (trace run.2)
  /\ exists res,
      filter (fun e => is_fetch e = true) (trace run.2)
      = [creation_request res].
Proof.
  intros run. unfold run. clear run.
  register_stages env st; intros Hnone;
    repeat match goal with
           | H : decoding_run _ _ |- _ => apply decoding_run_decodings in H
           end;
    try (exfalso; eapply Hnone; apply in_cons, in_or_app; right; by left);
    (split; [eauto|]); (split; [done|]); (split; [|exists r0]).
  - trace_calls.
  - done.
  - trace_calls. by apply of_kinds_decodings.
  - rewrite filter_cons_True by done. f_equal.
    by apply no_fetch_in_decodings.
  - trace_calls. by apply of_kinds_decodings.
  - rewrite filter_cons_True by done. f_equal. rewrite filter_app.
    rewrite filter_cons_False by done. rewrite app_nil_r.
    by apply no_fetch_in_decodings.
Qed.

Lemma register_without_credential_leaves_no_mark_witness :
  let run := registerCredential
               (Demo.env Demo.registration_server
                  (Throw (HostError "NotAllowedError")))
               (start Demo.stored) in
  (exists e, run.1 = Throw e) /\ storage run.2 = Demo.stored.
Proof.
  intros run.
  assert (Hnone : forall options cred,
             ~ In (EvCreate options (Ok cred)) (trace run.2)).
  { intros options cred Hin. vm_compute in Hin.
    repeat (destruct Hin as [Hin|Hin]; [discriminate Hin|]). exact Hin. }
  destruct (register_without_credential_leaves_no_mark
              (Demo.env Demo.registration_server
                 (Throw (HostError "NotAllowedError")))
              Demo.stored Hnone) as (He & Hst & _).
  by split.
Defined.

(** X11. A rejection by the authenticator ends a registration at once: the
    promise rejects with the authenticator's own reason, [create] is the
    last call, nothing was encoded or stored, and [localStorage] is as it
    was found.  The calls before [create] are requests and decodings, and
    exactly one of them is a request, the one for options to
    [/auth/registerRequest]: nothing is sent for verification, neither
    before [create] nor after it. *)
Theorem register_platform_rejection_is_final env st options e :
  let run := registerCredential env (start st) in
  In (EvCreate options (Throw e)) (trace run.2) ->
  run.1 = Throw e
  /\ storage run.2 = st
  /\ exists pre,
      trace run.2 = pre ++ [EvCreate options (Throw e)]
      /\ Forall (fun e => of_kinds [KFetch; KDecode] e = true) pre
      /\ calls KFetch pre = 1%nat
      /\ (exists res,
            filter (fun e => is_fetch e = true) pre = [creation_request res])
      /\ Forall (fun e => is_request_to "/auth/registerResponse" e = false)
           (trace run.2).
Proof.
  intros run. unfold run. clear run.
  register_stages env st; intros Hin;
    repeat match goal with
           | H : decoding_run _ _ |- _ => apply decoding_run_decodings in H
           end;
    member_cases Hin.
  injection Hin as <- <-. split; [done|]. split; [done|].
  exists (creation_request r0 :: decs). split; [done|].
  split; [trace_calls; by apply of_kinds_decodings|].
  split; [by rewrite calls_cons, (calls_decodings KFetch)|].
  split.
  - exists r0. rewrite filter_cons_True by done. f_equal.
    by apply no_fetch_in_decodings.
  - trace_calls. by apply no_request_in_decodings.
Qed.

Lemma register_platform_rejection_is_final_witness :
  let run := registerCredential
               (Demo.env Demo.registration_server
                  (Throw (HostError "NotAllowedError")))
               (start ∅) in
  run.1 = Throw (HostError "NotAllowedError") /\ storage run.2 = ∅.
Proof.
  intros run.
  destruct (register_platform_rejection_is_final
              (Demo.env Demo.registration_server
                 (Throw (HostError "NotAllowedError")))
              ∅
              Demo.creation_options
              (HostError "NotAllowedError"))
    as (Hout & Hst & _).
  - vm_compute. auto 10.
  - by split.
Defined.

(** X12. Options that come without a [user] (the member is missing or
    [null], or the body is not an object at all) make the registration
    reject with a [TypeError] right after the request for options: nothing
    is decoded, the authenticator is not called, nothing is stored. *)
Theorem register_options_without_user env st options w1 :
  _fetch env "/auth/registerRequest" (PValue creation_opts) (start st)
  = (Ok options, w1) ->
  field options "user" = VUndef \/ field options "user" = VNull ->
  registerCredential env (start st) = (Throw TypeError, w1).
Proof.
  intros Hreq Huser. unfold registerCredential. unfold bind at 1.
  rewrite Hreq. unfold bind at 1.
  unfold decode_creation_options, bind, get, lift.
  unfold field in Huser.
  destruct (get_prop options "user") as [user|e] eqn:Hget.
  - by destruct Huser as [->| ->].
  - by rewrite (get_prop_throws _ _ _ Hget).
Qed.

Lemma register_options_without_user_witness :
  let env := Demo.env (fun _ => Demo.ok (JObj [("challenge", JStr "AQID")]))
               (Ok Demo.attestation) in
  registerCredential env (start ∅)
  = (Throw TypeError,
     (_fetch env "/auth/registerRequest" (PValue creation_opts) (start ∅)).2).
Proof.
  intros env.
  apply (register_options_without_user env ∅
           (of_json (JObj [("challenge", JStr "AQID")]))).
  - reflexivity.
  - left. reflexivity.
Defined.

Lemma no_encode_in_decodings l :
  Forall (fun e => is_decode e = true) l ->
  filter (fun e => is_encode e = true) l = [].
Proof.
  intros Hl. apply filter_kind_nil. eapply Forall_impl; [exact Hl|].
  by intros [].
Qed.

(** X13. When the credential returned by the authenticator has a response
    bundle, the registration encodes three binaries, [rawId],
    [response.clientDataJSON] and [response.attestationObject], in that
    order and nothing else, and the JSON object sent to
    [/auth/registerResponse] carries the three texts, the bundle holding
    exactly its two; [id] is passed on as it came. *)
Theorem register_sends_encoded_response_bundle
    env st options cred id s out w' :
  registerCredential env (start st) = (out, w') ->
  In (EvCreate options (Ok cred)) (trace w') ->
  get_prop cred "id" = Ok id ->
  to_string id = Ok s ->
  truthy (field cred "response") = true ->
  let text v k := base64url_encode (base64url env) (field v k) in
  let bundle := field cred "response" in
  exists pre members res,
    trace w' =
      pre ++ [EvSetItem "credId" s;
              EvFetch "/auth/registerResponse"
                {| method := "POST";
                   credentials := "same-origin";
                   headers := [("X-Requested-With", "XMLHttpRequest");
                               ("Content-Type", "application/json")];
                   body := BodyJSON (JObj members) |}
                res]
    /\ filter (fun e => is_encode e = true) (trace w')
       = [EvEncode (field cred "rawId") (text cred "rawId");
          EvEncode (field bundle "clientDataJSON")
            (text bundle "clientDataJSON");
          EvEncode (field bundle "attestationObject")
            (text bundle "attestationObject")]
    /\ own "rawId" members = Some (JStr (text cred "rawId"))
    /\ own "response" members
       = Some (JObj [("clientDataJSON", JStr (text bundle "clientDataJSON"));
                     ("attestationObject",
                      JStr (text bundle "attestationObject"))])
    /\ own "id" members = to_json id
    /\ out = settle res.
Proof.
  intros Hrun Hin Hid Hs Hresp text bundle.
  assert (Hin' : In (EvCreate options (Ok cred))
                    (trace (registerCredential env (start st)).2))
    by by rewrite Hrun.
  destruct (register_created env st options cred id s Hin' Hid Hs)
    as (init0 & res0 & decs & credential & evs & Hdecs & Henc & Hrest).
  cbv zeta in Henc, Hrest.
  set (pre := EvFetch "/auth/registerRequest" init0 res0
                :: decs ++ [EvCreate options (Ok cred)]) in *.
  rewrite Hrun, fetch_run in Hrest. injection Hrest as -> ->.
  rewrite (encode_attestation_present _ _ _ _ Hid Hresp) in Henc.
  cbv zeta in Henc.
  injection Henc as <- Hevs. apply app_inv_head in Hevs as <-.
  rewrite request_init_object.
  eexists (pre ++ [_; _; _]). eexists; eexists.
  cbn [trace storage emit fst snd].
  split; [apply (app_two_last pre [_; _; _])|].
  split.
  { unfold pre. rewrite !filter_app, filter_cons_False by done.
    rewrite !filter_app, (no_encode_in_decodings _ Hdecs).
    reflexivity. }
  cbn [json_members].
  destruct (to_json id) as [j|] eqn:Hj;
    destruct (to_json (field cred "type")); by repeat split.
Qed.

Lemma register_sends_encoded_response_bundle_witness :
  let run := registerCredential
               (Demo.env Demo.registration_server (Ok Demo.attestation))
               (start ∅) in
  filter (fun e => is_encode e = true) (trace run.2)
  = [EvEncode (VBuf (Demo.bytes "abc")) "YWJj";
     EvEncode (VBuf (Demo.bytes "{}")) "e30";
     EvEncode (VBuf (Demo.bytes "att")) "YXR0"].
Proof.
  intros run.
  destruct (register_sends_encoded_response_bundle
              (Demo.env Demo.registration_server (Ok Demo.attestation)) ∅
              Demo.creation_options Demo.attestation (VStr "abc") "abc"
              run.1 run.2)
    as (pre & members & res & _ & Hencs & _).
  - reflexivity.
  - vm_compute. auto 10.
  - reflexivity.
  - reflexivity.
  - reflexivity.
  - exact Hencs.
Defined.

(** X14. What a registration never does, whatever the environment answers:
    it calls nothing but [fetch], the codec, [create] and
    [localStorage.setItem] (so it reads and removes no storage entry, asks
    for no assertion and logs nothing); it calls [create] at most once,
    writes at most once, and makes at most two requests, to no other path
    than [/auth/registerRequest] and [/auth/registerResponse]. *)
Theorem register_call_budget env st :
  let tr := trace (registerCredential env (start st)).2 in
  Forall (fun e => of_kinds [KFetch; KDecode; KCreate; KEncode; KSetItem] e
                   = true) tr
  /\ (calls KCreate tr <= 1)%nat
  /\ (calls KSetItem tr <= 1)%nat
  /\ (calls KFetch tr <= 2)%nat
  /\ Forall (fun e => is_fetch e = true ->
                      is_request_to "/auth/registerRequest" e = true
                      \/ is_request_to "/auth/registerResponse" e = true) tr.
Proof.
  intros tr. unfold tr. clear tr.
  register_stages env st;
    repeat match goal with
           | H : decoding_run _ _ |- _ => apply decoding_run_decodings in H
           end;
    (split;
     [trace_calls;
      first [by apply of_kinds_decodings|by apply of_kinds_encodings]|]);
    repeat (rewrite calls_cons || rewrite calls_app);
    rewrite ?(calls_decodings KCreate), ?(calls_decodings KSetItem),
      ?(calls_decodings KFetch), ?(calls_encodings KCreate),
      ?(calls_encodings KSetItem), ?(calls_encodings KFetch) by done;
    cbn [kind kind_eqb creation_request calls List.filter length Nat.add];
    (split; [lia|]); (split; [lia|]); (split; [lia|]);
    trace_calls; try (by left); try (by right);
    (eapply Forall_impl; [eassumption|]); by intros [].
Qed.

Lemma register_call_budget_witness :
  (calls KFetch
     (trace (registerCredential
               (Demo.env Demo.registration_server (Ok Demo.attestation))
               (start ∅)).2) <= 2)%nat.
Proof.
  apply (register_call_budget
           (Demo.env Demo.registration_server (Ok Demo.attestation)) ∅).
Defined.

(** X15. A registration resolves only after a verification that succeeded:
    when the promise resolves, the last call was the request to
    [/auth/registerResponse], it was answered with status 200 and a JSON
    body, the promise resolves with that body, and the identifier is in the
    slot [credId]. *)
Theorem register_resolves_only_when_verified env st v :
  let run := registerCredential env (start st) in
  run.1 = Ok v ->
  exists pre credential res j s,
    trace run.2
    = pre ++ [EvSetItem "credId" s;
              EvFetch "/auth/registerResponse"
                (request_init (PValue credential)) (Ok res)]
    /\ status res = 200
    /\ json res = Some j
    /\ v = of_json j
    /\ storage run.2 !! "credId" = Some s.
Proof.
  intros run. unfold run. clear run.
  register_stages env st; intros Hout; try discriminate Hout.
  apply settle_ok in Hout as (res' & j & -> & Hstatus & Hjson & ->).
  eexists (creation_request r0 :: decs ++ _ :: encs).
  exists credential, res', j, s.
  split; [by rewrite <- !app_comm_cons, <- app_assoc|].
  split; [done|]. split; [done|]. split; [done|].
  apply lookup_insert_eq.
Qed.

Lemma register_resolves_only_when_verified_witness :
  let run := registerCredential
               (Demo.env Demo.registration_server (Ok Demo.attestation))
               (start ∅) in
  exists pre credential res j s,
    trace run.2
    = pre ++ [EvSetItem "credId" s;
              EvFetch "/auth/registerResponse"
                (request_init (PValue credential)) (Ok res)]
    /\ status res = 200
    /\ json res = Some j
    /\ VObj [("ok", VBool true)] = of_json j
    /\ storage run.2 !! "credId" = Some s.
Proof.
  intros run.
  apply (register_resolves_only_when_verified
           (Demo.env Demo.registration_server (Ok Demo.attestation)) ∅).
  reflexivity.
Defined.

(** X16. When [create] resolves without a credential ([null] or
    [undefined]), the registration rejects with a [TypeError] on reading
    its [id]: [create] is the last call, nothing is encoded or stored, and
    [localStorage] is as it was found.  The calls before [create] are
    requests and decodings, and exactly one of them is a request, the one
    for options to [/auth/registerRequest]: nothing is sent for
    verification, neither before [create] nor after it. *)
Theorem register_without_attestation env st options cred :
  let run := registerCredential env (start st) in
  In (EvCreate options (Ok cred)) (trace run.2) ->
  cred = VNull \/ cred = VUndef ->
  run.1 = Throw TypeError
  /\ storage run.2 = st
  /\ exists pre,
      trace run.2 = pre ++ [EvCreate options (Ok cred)]
      /\ Forall (fun e => of_kinds [KFetch; KDecode] e = true) pre
      /\ calls KFetch pre = 1%nat
      /\ (exists res,
            filter (fun e => is_fetch e = true) pre = [creation_request res])
      /\ Forall (fun e => is_request_to "/auth/registerResponse" e = false)
           (trace run.2).
Proof.
  intros run. unfold run. clear run.
  register_stages env st; intros Hin Hcred;
    repeat match goal with
           | H : decoding_run _ _ |- _ => apply decoding_run_decodings in H
           end;
    member_cases Hin.
  - injection Hin as <- <-.
    match goal with
    | H : _ \/ _ |- _ =>
        destruct H as [[Hid ->]|(id & Hid & _)];
          [|by destruct Hcred as [->| ->]]
    end.
    pose proof (get_prop_throws _ _ _ Hid) as ->.
    split; [done|]. split; [done|].
    exists (creation_request r0 :: decs). split; [done|].
    split; [trace_calls; by apply of_kinds_decodings|].
    split; [by rewrite calls_cons, (calls_decodings KFetch)|].
    split.
    + exists r0. rewrite filter_cons_True by done. f_equal.
      by apply no_fetch_in_decodings.
    + trace_calls. by apply no_request_in_decodings.
  - injection Hin as _ <-. by destruct Hcred as [->| ->].
Qed.

Lemma register_without_attestation_witness :
  let run := registerCredential
               (Demo.env Demo.registration_server (Ok VNull))
               (start Demo.stored) in
  run.1 = Throw TypeError /\ storage run.2 = Demo.stored.
Proof.
  intros run.
  destruct (register_without_attestation
              (Demo.env Demo.registration_server (Ok VNull)) Demo.stored
              Demo.creation_options VNull)
    as (Hout & Hst & _).
  - vm_compute. auto 10.
  - by left.
  - by split.
Defined.

(** ** Further properties of the Authentication Ceremony *)

Ltac authenticate_stages env st :=
  let Hstage := fresh "Hstage" in
  pose proof (authenticate_run env st) as Hstage;
  destruct (authenticate env (start st)) as [out w'];
  cbn [fst snd] in *; destruct Hstage; cbn [trace storage] in *;
  try match goal with
      | H : decoding_run _ _ |- _ =>
          pose proof (decoding_run_decodings _ _ H)
      end.

(** X17. What an authentication never does, whatever the environment
    answers: it leaves [localStorage] as it found it, reading the slot
    [credId] once and writing or removing nothing; it never calls [create]
    and calls [get] at most once; it makes one or two requests, to no other
    path than the one for sign-in options and [/auth/signinResponse]. *)
Theorem authenticate_call_budget env st :
  let run := authenticate env (start st) in
  let tr := trace run.2 in
  storage run.2 = st
  /\ Forall (fun e => of_kinds [KGetItem; KFetch; KInfo; KDecode; KGet;
                                KEncode] e = true) tr
  /\ calls KGetItem tr = 1%nat
  /\ (calls KGet tr <= 1)%nat
  /\ (1 <= calls KFetch tr <= 2)%nat
  /\ Forall (fun e => is_fetch e = true ->
                      is_request_to (signin_path (st !! "credId")) e = true
                      \/ is_request_to "/auth/signinResponse" e = true) tr.
Proof.
  intros run tr. unfold tr, run. clear tr run.
  authenticate_stages env st;
    (split; [done|]);
    (split;
     [trace_calls;
      first [by apply of_kinds_decodings|by apply of_kinds_encodings]|]);
    repeat (rewrite calls_cons || rewrite calls_app);
    rewrite ?(calls_decodings KGetItem), ?(calls_decodings KGet),
      ?(calls_decodings KFetch), ?(calls_encodings KGetItem),
      ?(calls_encodings KGet), ?(calls_encodings KFetch) by done;
    cbn [kind kind_eqb signin_request calls List.filter length Nat.add];
    (split; [lia|]); (split; [lia|]); (split; [lia|]);
    trace_calls;
    try (intros _; left; apply String.eqb_refl); try (by right);
    (eapply Forall_impl; [eassumption|]); by intros [].
Qed.

Lemma authenticate_call_budget_witness :
  storage (authenticate (Demo.env Demo.signin_server (Ok Demo.assertion))
             (start Demo.stored)).2
  = Demo.stored.
Proof.
  apply (authenticate_call_budget
           (Demo.env Demo.signin_server (Ok Demo.assertion)) Demo.stored).
Defined.

(** X18. An authentication begins by reading the slot [credId] and asking
    for sign-in options, with the JSON body of an empty object.  The path
    is [/auth/signinRequest] when the slot is empty or holds the empty
    text; otherwise the stored identifier follows, escaped, as the query
    parameter [credId]. *)
Theorem authenticate_asks_options_for_the_stored_identifier env st :
  exists path res rest,
    trace (authenticate env (start st)).2
    = EvGetItem "credId" (st !! "credId")
        :: EvFetch path
             {| method := "POST";
                credentials := "same-origin";
                headers := [("X-Requested-With", "XMLHttpRequest");
                            ("Content-Type", "application/json")];
                body := BodyJSON (JObj []) |}
             res
        :: rest
    /\ (st !! "credId" = None -> path = "/auth/signinRequest")
    /\ (st !! "credId" = Some "" -> path = "/auth/signinRequest")
    /\ (forall s, st !! "credId" = Some s -> s <> "" ->
        path = ("/auth/signinRequest?credId=" ++ encodeURIComponent s)%string).
Proof.
  assert (Hpath :
    (st !! "credId" = None ->
     signin_path (st !! "credId") = "/auth/signinRequest")
    /\ (st !! "credId" = Some "" ->
        signin_path (st !! "credId") = "/auth/signinRequest")
    /\ (forall s, st !! "credId" = Some s -> s <> "" ->
        signin_path (st !! "credId")
        = ("/auth/signinRequest?credId=" ++ encodeURIComponent s)%string)).
  { split; [by intros ->|]. split; [by intros ->|].
    intros s -> Hs. unfold signin_path.
    destruct (String.eqb s "") eqn:Heq; [|done].
    by apply String.eqb_eq in Heq. }
  authenticate_stages env st; unfold signin_request;
    rewrite (request_init_object []);
    exists (signin_path (st !! "credId")), r0; eexists;
    (split; [reflexivity|exact Hpath]).
Qed.

Lemma authenticate_asks_options_for_the_stored_identifier_witness :
  exists path res rest,
    trace (authenticate (Demo.env Demo.signin_server (Ok Demo.assertion))
             (start {["credId" := "a/b c"]})).2
    = EvGetItem "credId" (Some "a/b c")
        :: EvFetch path
             {| method := "POST";
                credentials := "same-origin";
                headers := [("X-Requested-With", "XMLHttpRequest");
                            ("Content-Type", "application/json")];
                body := BodyJSON (JObj []) |}
             res
        :: rest
    /\ path = "/auth/signinRequest?credId=a%2Fb%20c".
Proof.
  destruct (authenticate_asks_options_for_the_stored_identifier
              (Demo.env Demo.signin_server (Ok Demo.assertion))
              {["credId" := "a/b c"]})
    as (path & res & rest & Htrace & _ & _ & Hpath).
  exists path, res, rest. split; [exact Htrace|].
  by apply (Hpath "a/b c").
Defined.



(** X20. A text that does not decode stops an authentication: whenever a
    call to [decode] failed, the promise rejects with
    [MalformedEncodingError], the authenticator was not called, and the
    only request made is the one for options. *)
Theorem authenticate_rejects_malformed_options env st text :
  let run := authenticate env (start st) in
  In (EvDecode text None) (trace run.2) ->
  run.1 = Throw MalformedEncodingError
  /\ Forall (fun e => is_platform_call e = false) (trace run.2)
  /\ calls KFetch (trace run.2) = 1%nat.
Proof.
  intros run. unfold run. clear run.
  assert (Hfailed : forall decs,
             In (EvDecode text None) decs ->
             ~ Forall (fun e => is_failed_decode e = false) decs).
  { intros decs Hin Hall. rewrite List.Forall_forall in Hall.
    by specialize (Hall _ Hin). }
  authenticate_stages env st; intros Hin;
    try (member_cases Hin; fail).
  - member_cases Hin.
    destruct H0 as [_ [[= ->]|Hall]]; [|by destruct (Hfailed _ Hin)].
    split; [done|]. split.
    + trace_calls. eapply Forall_impl; [eassumption|]. by intros [].
    + rewrite !calls_cons, (calls_decodings KFetch) by done. reflexivity.
  - exfalso. destruct H0 as [_ [?|Hall]]; [done|].
    member_cases Hin. by destruct (Hfailed _ Hin).
  - exfalso. destruct H0 as [_ [?|Hall]]; [done|].
    member_cases Hin. by destruct (Hfailed _ Hin).
  - exfalso. destruct H0 as [_ [?|Hall]]; [done|].
    member_cases Hin. by destruct (Hfailed _ Hin).
Qed.

Lemma authenticate_rejects_malformed_options_witness :
  let env := Demo.env
               (fun _ => Demo.ok (JObj [("challenge", JStr "not base64!!");
                                        ("allowCredentials",
                                         JArr Demo.allowed)]))
               (Ok Demo.assertion) in
  (authenticate env (start ∅)).1 = Throw MalformedEncodingError.
Proof.
  intros env.
  destruct (authenticate_rejects_malformed_options env ∅
              (VStr "not base64!!"))
    as (Hout & _).
  - vm_compute. auto 10.
  - exact Hout.
Defined.

(** X21. Sign-in options without a usable [allowCredentials] (the member
    is missing or [null], or the body is not an object at all) make the
    authentication reject with a [TypeError] right after the request for
    options: nothing is logged, nothing is decoded and the authenticator is
    not called. *)
Theorem authenticate_options_without_allow_list env st options w1 :
  request_options env (start st) = (Ok options, w1) ->
  field options "allowCredentials" = VUndef
  \/ field options "allowCredentials" = VNull ->
  authenticate env (start st) = (Throw TypeError, w1).
Proof.
  intros Hreq Hallow. unfold authenticate. unfold bind at 1.
  rewrite Hreq. unfold bind, get, lift.
  unfold field in Hallow.
  destruct (get_prop options "allowCredentials") as [allow|e] eqn:Hget.
  - by destruct Hallow as [->| ->].
  - by rewrite (get_prop_throws _ _ _ Hget).
Qed.

Lemma authenticate_options_without_allow_list_witness :
  let env := Demo.env Demo.registration_server (Ok Demo.assertion) in
  authenticate env (start ∅)
  = (Throw TypeError, (request_options env (start ∅)).2).
Proof.
  intros env.
  apply (authenticate_options_without_allow_list env ∅
           (VObj [("ok", VBool true)])).
  - reflexivity.
  - left. reflexivity.
Defined.

(** An authentication in which the authenticator returned a credential
    with an identifier: up to the last request. *)
Lemma authenticate_got env st opts c id :
  In (EvGet opts (Ok c)) (trace (authenticate env (start st)).2) ->
  get_prop c "id" = Ok id ->
  exists pre credential encs res,
    (forall w, encode_assertion env c w = (Ok credential, emit_all encs w))
    /\ Forall (fun e => is_encode e = false) pre
    /\ trace (authenticate env (start st)).2
       = pre ++ encs ++ [EvFetch "/auth/signinResponse"
                           (request_init (PValue credential)) res]
    /\ (authenticate env (start st)).1 = settle res.
Proof.
  authenticate_stages env st; intros Hin Hid; member_cases Hin.
  - injection Hin as _ <-. congruence.
  - injection Hin as _ <-.
    exists (EvGetItem "credId" (st !! "credId")
              :: signin_request (st !! "credId") r0
              :: decs ++ [EvGet (VObj [("publicKey", options')]) (Ok cred)]),
      credential, encs, res.
    split; [done|]. split.
    + trace_calls. eapply Forall_impl; [eassumption|]. by intros [].
    + split; [|done]. by rewrite <- !app_comm_cons, <- app_assoc.
Qed.

(** X22. When the credential returned by [get] has a response bundle, the
    authentication encodes five binaries, [rawId] and the
    [clientDataJSON], [authenticatorData], [signature] and [userHandle] of
    the bundle, in that order and nothing else, and the JSON object sent to
    [/auth/signinResponse] carries the five texts, the bundle holding
    exactly its four; [id] is passed on as it came, and the promise
    settles as that request does. *)
Theorem authenticate_sends_encoded_assertion env st options cred id out w' :
  authenticate env (start st) = (out, w') ->
  In (EvGet options (Ok cred)) (trace w') ->
  get_prop cred "id" = Ok id ->
  truthy (field cred "response") = true ->
  let text v k := base64url_encode (base64url env) (field v k) in
  let bundle := field cred "response" in
  exists pre members res,
    trace w' =
      pre ++ [EvFetch "/auth/signinResponse"
                {| method := "POST";
                   credentials := "same-origin";
                   headers := [("X-Requested-With", "XMLHttpRequest");
                               ("Content-Type", "application/json")];
                   body := BodyJSON (JObj members) |}
                res]
    /\ filter (fun e => is_encode e = true) (trace w')
       = [EvEncode (field cred "rawId") (text cred "rawId");
          EvEncode (field bundle "clientDataJSON")
            (text bundle "clientDataJSON");
          EvEncode (field bundle "authenticatorData")
            (text bundle "authenticatorData");
          EvEncode (field bundle "signature") (text bundle "signature");
          EvEncode (field bundle "userHandle") (text bundle "userHandle")]
    /\ own "rawId" members = Some (JStr (text cred "rawId"))
    /\ own "response" members
       = Some (JObj [("clientDataJSON", JStr (text bundle "clientDataJSON"));
                     ("authenticatorData",
                      JStr (text bundle "authenticatorData"));
                     ("signature", JStr (text bundle "signature"));
                     ("userHandle", JStr (text bundle "userHandle"))])
    /\ own "id" members = to_json id
    /\ out = settle res.
Proof.
  intros Hrun Hin Hid Hresp text bundle.
  assert (Hin' : In (EvGet options (Ok cred))
                    (trace (authenticate env (start st)).2))
    by by rewrite Hrun.
  destruct (authenticate_got env st options cred id Hin' Hid)
    as (pre & credential & encs & res & Henc & Hpre & Htrace & Hout).
  rewrite Hrun in Htrace, Hout. cbn [fst snd] in Htrace, Hout.
  specialize (Henc (start ∅)).
  rewrite (encode_assertion_present _ _ _ _ Hid Hresp) in Henc.
  cbv zeta in Henc. injection Henc as <- <-.
  rewrite request_init_object in Htrace.
  eexists (pre ++ [_; _; _; _; _]). eexists. exists res.
  split; [by rewrite Htrace, <- app_assoc|].
  split.
  { rewrite Htrace, !filter_app, (filter_kind_nil _ _ Hpre).
    reflexivity. }
  cbn [json_members].
  destruct (to_json id) as [j|] eqn:Hj;
    destruct (to_json (field cred "type")); by repeat split.
Qed.

Lemma authenticate_sends_encoded_assertion_witness :
  let run := authenticate (Demo.env Demo.signin_server (Ok Demo.assertion))
               (start Demo.stored) in
  filter (fun e => is_encode e = true) (trace run.2)
  = [EvEncode (VBuf (Demo.bytes "abc")) "YWJj";
     EvEncode (VBuf (Demo.bytes "{}")) "e30";
     EvEncode (VBuf (Demo.bytes "data")) "ZGF0YQ";
     EvEncode (VBuf (Demo.bytes "sig")) "c2ln";
     EvEncode (VBuf (Demo.bytes "user")) "dXNlcg"].
Proof.
  intros run.
  destruct (authenticate_sends_encoded_assertion
              (Demo.env Demo.signin_server (Ok Demo.assertion)) Demo.stored
              (VObj [("publicKey",
                      decoded_request_options
                        (Demo.env Demo.signin_server (Ok Demo.assertion))
                        (of_json Demo.signin_options))])
              Demo.assertion (VStr "abc") run.1 run.2)
    as (pre & members & res & _ & Hencs & _).
  - reflexivity.
  - vm_compute. auto 10.
  - reflexivity.
  - reflexivity.
  - exact Hencs.
Defined.

(** X23. When the credential returned by [get] has no response bundle
    ([cred.response] is [undefined], [null], or otherwise falsy), the
    authentication goes on: only [rawId] is encoded, and the request to
    [/auth/signinResponse] carries a JSON object made of [id], [type] and
    [rawId] with no [response] member; the promise settles as that request
    does. *)
Theorem authenticate_without_response_bundle env st options cred id out w' :
  authenticate env (start st) = (out, w') ->
  In (EvGet options (Ok cred)) (trace w') ->
  get_prop cred "id" = Ok id ->
  truthy (field cred "response") = false ->
  let rawId := base64url_encode (base64url env) (field cred "rawId") in
  exists pre members res,
    trace w' =
      pre ++ [EvFetch "/auth/signinResponse"
                {| method := "POST";
                   credentials := "same-origin";
                   headers := [("X-Requested-With", "XMLHttpRequest");
                               ("Content-Type", "application/json")];
                   body := BodyJSON (JObj members) |}
                res]
    /\ filter (fun e => is_encode e = true) (trace w')
       = [EvEncode (field cred "rawId") rawId]
    /\ to_json (VObj [("id", id); ("type", field cred "type");
                      ("rawId", VStr rawId)])
       = Some (JObj members)
    /\ own "response" members = None
    /\ out = settle res.
Proof.
  intros Hrun Hin Hid Hresp rawId.
  assert (Hin' : In (EvGet options (Ok cred))
                    (trace (authenticate env (start st)).2))
    by by rewrite Hrun.
  destruct (authenticate_got env st options cred id Hin' Hid)
    as (pre & credential & encs & res & Henc & Hpre & Htrace & Hout).
  rewrite Hrun in Htrace, Hout. cbn [fst snd] in Htrace, Hout.
  specialize (Henc (start ∅)).
  rewrite (encode_assertion_absent _ _ _ _ Hid Hresp) in Henc.
  injection Henc as <- <-.
  rewrite request_init_object in Htrace.
  eexists (pre ++ [_]). eexists. exists res.
  split; [by rewrite Htrace, <- app_assoc|].
  split.
  { rewrite Htrace, !filter_app, (filter_kind_nil _ _ Hpre).
    reflexivity. }
  split; [by rewrite to_json_object|].
  split; [|done].
  cbn [json_members].
  by destruct (to_json id), (to_json (field cred "type")).
Qed.

Lemma authenticate_without_response_bundle_witness :
  let run := authenticate
               (Demo.env Demo.signin_server (Ok Demo.bare_attestation))
               (start Demo.stored) in
  filter (fun e => is_encode e = true) (trace run.2)
  = [EvEncode (VBuf (Demo.bytes "abc")) "YWJj"].
Proof.
  intros run.
  destruct (authenticate_without_response_bundle
              (Demo.env Demo.signin_server (Ok Demo.bare_attestation))
              Demo.stored
              (VObj [("publicKey",
                      decoded_request_options
                        (Demo.env Demo.signin_server
                           (Ok Demo.bare_attestation))
                        (of_json Demo.signin_options))])
              Demo.bare_attestation (VStr "abc") run.1 run.2)
    as (pre & members & res & _ & Hencs & _).
  - reflexivity.
  - vm_compute. auto 10.
  - reflexivity.
  - reflexivity.
  - exact Hencs.
Defined.





(** ** The operations, one after the other *)

Lemma authenticate_first_calls env st :
  exists res rest,
    trace (authenticate env (start st)).2
    = EvGetItem "credId" (st !! "credId")
        :: signin_request (st !! "credId") res :: rest.
Proof.
  authenticate_stages env st; exists r0; by eexists.
Qed.

Lemma register_storage env st :
  let w' := (registerCredential env (start st)).2 in
  (storage w' = st /\ forall k s, ~ In (EvSetItem k s) (trace w'))
  \/ exists s, storage w' = <["credId" := s]> st
               /\ forall k s', In (EvSetItem k s') (trace w') -> s' = s.
Proof.
  register_stages env st;
    repeat match goal with
           | H : decoding_run _ _ |- _ => apply decoding_run_decodings in H
           end;
    try (left; split; [done|]; intros k s' Hin; by member_cases Hin).
  right. exists s. split; [done|].
  intros k s' Hin. member_cases Hin. by injection Hin as _ <-.
Qed.

(** X26. An authentication that follows a registration asks for the
    credential just registered: when the registration wrote the identifier
    [s] (not the empty text), the next authentication, in whatever
    environment, reads [s] from the slot and requests the sign-in options
    at [/auth/signinRequest?credId=] followed by [s], escaped; this holds
    also when the server refused the registration. *)
Theorem authenticate_after_register_asks_for_the_new_credential
    env env' st k s :
  let registered := (registerCredential env (start st)).2 in
  In (EvSetItem k s) (trace registered) ->
  s <> "" ->
  exists res rest,
    trace (authenticate env' (start (storage registered))).2
    = EvGetItem "credId" (Some s)
        :: EvFetch ("/auth/signinRequest?credId=" ++ encodeURIComponent s)
             (request_init (PValue (VObj []))) res
        :: rest.
Proof.
  intros registered Hin Hs. unfold registered in *. clear registered.
  destruct (authenticate_first_calls env'
              (storage (registerCredential env (start st)).2))
    as (res & rest & Htrace).
  exists res, rest. rewrite Htrace.
  destruct (register_storage env st) as [[_ Hnone]|(s' & Hst & Hsame)];
    [by destruct (Hnone k s)|].
  rewrite (Hsame _ _ Hin), Hst, lookup_insert_eq.
  rewrite <- (Hsame _ _ Hin).
  unfold signin_request, signin_path.
  destruct (String.eqb s "") eqn:Heq; [|done].
  by apply String.eqb_eq in Heq.
Qed.

Lemma authenticate_after_register_asks_for_the_new_credential_witness :
  let registered :=
    (registerCredential (Demo.env Demo.refusing_server (Ok Demo.attestation))
       (start ∅)).2 in
  exists res rest,
    trace (authenticate (Demo.env Demo.signin_server (Ok Demo.assertion))
             (start (storage registered))).2
    = EvGetItem "credId" (Some "abc")
        :: EvFetch "/auth/signinRequest?credId=abc"
             (request_init (PValue (VObj []))) res
        :: rest.
Proof.
  intros registered.
  apply (authenticate_after_register_asks_for_the_new_credential
           (Demo.env Demo.refusing_server (Ok Demo.attestation))
           (Demo.env Demo.signin_server (Ok Demo.assertion))
           ∅ "credId" "abc").
  - vm_compute. auto 10.
  - discriminate.
Defined.

(** X27. An authentication that follows an unregistration knows no
    credential: whatever identifier was unregistered, whatever the slot
    held and however the server answered the removal, the next
    authentication finds the slot empty and requests the sign-in options at
    [/auth/signinRequest], without query string. *)
Theorem authenticate_after_unregister_names_no_credential
    env env' credId st :
  let unregistered := (unregisterCredential env credId (start st)).2 in
  exists res rest,
    trace (authenticate env' (start (storage unregistered))).2
    = EvGetItem "credId" None
        :: EvFetch "/auth/signinRequest" (request_init (PValue (VObj []))) res
        :: rest.
Proof.
  intros unregistered.
  destruct (authenticate_first_calls env' (storage unregistered))
    as (res & rest & Htrace).
  exists res, rest. rewrite Htrace.
  assert (Hslot : storage unregistered !! "credId" = None).
  { unfold unregistered, unregisterCredential, bind, localStorage_removeItem.
    rewrite fetch_run. apply lookup_delete_eq. }
  by rewrite Hslot.
Qed.

(** X28. Unregistering undoes what a registration stored: after a
    registration and an unregistration, with whatever identifier, in
    whatever environments and however each of them ended, [localStorage]
    is the storage the registration found, without the slot [credId]. *)
Theorem unregister_after_register_restores_storage env env' credId st :
  let registered := (registerCredential env (start st)).2 in
  storage (unregisterCredential env' credId (start (storage registered))).2
  = delete "credId" st.
Proof.
  intros registered.
  unfold unregisterCredential, bind, localStorage_removeItem.
  rewrite fetch_run. cbn [storage emit fst snd start].
  unfold registered.
  destruct (register_storage env st) as [[-> _]|(s & -> & _)]; [done|].
  apply delete_insert_eq.
Qed.
